(** * Inicio.py: the Streamlit data-analysis page, as a state-and-exception
    program over an explicit world of external libraries.

    [main] of src/Inicio.py is re-executed from top to bottom on every user
    interaction.  One execution is modelled as a computation in a small
    state/exception monad:
    - the state holds [st.session_state], [os.environ] and the trace of the
      run (every Streamlit element rendered and every call made to pandas,
      LangChain and the agent, in program order);
    - exceptions are Python exceptions; [except Exception] does not catch
      the control-flow exception raised by [st.rerun()], which derives from
      [BaseException];
    - the values returned by the widgets are the inputs of the run, the
      results of the external libraries are given by a [World].

    What is taken from the libraries rather than from Inicio.py: the
    rendering calls of Streamlit return without raising; a call into
    pandas, LangChain or the agent either returns or raises an exception
    deriving from [Exception]; an agent invocation does not touch
    [st.session_state]. *)

From stdpp Require Import gmap strings list pretty.

Set Default Proof Using "Type".

(** ** Python strings *)

(** A Python [str] is a sequence of Unicode code points: [len] counts code
    points and [s[:60]] keeps the first 60 of them. *)
Definition str := list N.

Module Utf8.
(** The literals of the source are written in this file as they are in
    Inicio.py; [decode] reads the UTF-8 bytes of such a literal as code
    points.  [pending] is the number of continuation bytes still expected
    and [acc] the bits gathered so far. *)
Fixpoint decode (bs : list N) (pending : nat) (acc : N) : list N :=
  match bs with
  | [] => []
  | b :: bs' =>
    match pending with
    | O =>
      if (b <? 128)%N then b :: decode bs' 0 0%N
      else if (b <? 224)%N then decode bs' 1 (b - 192)%N
      else if (b <? 240)%N then decode bs' 2 (b - 224)%N
      else decode bs' 3 (b - 240)%N
    | S p =>
      let acc' := (acc * 64 + (b - 128))%N in
      match p with
      | O => acc' :: decode bs' 0 0%N
      | S _ => decode bs' p acc'
      end
    end
  end.

Fixpoint bytes (s : string) : list N :=
  match s with
  | EmptyString => []
  | String a s' => Ascii.N_of_ascii a :: bytes s'
  end.
End Utf8.

Definition py (s : string) : str := Utf8.decode (Utf8.bytes s) 0 0%N.

Fixpoint str_eqb (s t : str) : bool :=
  match s, t with
  | [], [] => true
  | a :: s', b :: t' => (a =? b)%N && str_eqb s' t'
  | _, _ => false
  end.

(** [s.endswith(suffix)] *)
Definition endswith (s suffix : str) : bool :=
  (length suffix <=? length s) && str_eqb (drop (length s - length suffix) s) suffix.

(** [not s] for a string, and the truth value of a string in a condition *)
Definition truthy (s : str) : bool :=
  match s with [] => false | _ :: _ => true end.

(** ** Data *)

(** The object returned by [st.file_uploader] when a file is present. *)
Record UploadedFile := { name : str; content : list N }.

(** Element types pandas infers when it reads a file, with the text
    [astype(str)] gives for each. *)
Inductive dtype := int64 | float64 | bool_ | object_ | datetime64.

Definition dtype_str (d : dtype) : str :=
  match d with
  | int64 => py "int64"
  | float64 => py "float64"
  | bool_ => py "bool"
  | object_ => py "object"
  | datetime64 => py "datetime64[ns]"
  end.

(** A column: its label, its element type and its cells; [None] is a
    missing value (NaN, None, NaT). *)
Record Series := { label : str; dtype_of : dtype; cells : list (option str) }.

(** A [pd.DataFrame]: [shape = (rows, length columns)]. *)
Record DataFrame := { columns : list Series; rows : nat }.

(** [df.count()] and [df.isnull().sum()], per column *)
Definition count (c : Series) : nat :=
  length (filter (λ x, is_Some x) (cells c)).
Definition isnull_sum (c : Series) : nat :=
  length (filter (λ x, x = None) (cells c)).

(** [df.head(n)] *)
Definition head (n : nat) (df : DataFrame) : DataFrame :=
  {| columns :=
       map (λ c, {| label := label c; dtype_of := dtype_of c;
                    cells := take n (cells c) |}) (columns df);
     rows := min n (rows df) |}.

(** [df.select_dtypes(include=['number'])] *)
Definition is_number (d : dtype) : bool :=
  match d with int64 | float64 => true | _ => false end.
Definition select_dtypes_number (df : DataFrame) : DataFrame :=
  {| columns := filter (λ c, is_number (dtype_of c) = true) (columns df);
     rows := rows df |}.

(** [df.empty]: some axis has length 0 *)
Definition empty (df : DataFrame) : bool :=
  match columns df, rows df with
  | [], _ | _, O => true
  | _, _ => false
  end.

(** One row of [info_df] (lines 96-101): 'Columna', 'Tipo', 'No Nulos',
    'Nulos'. *)
Record info_row := { Columna : str; Tipo : str; No_Nulos : nat; Nulos : nat }.

Definition info_df (df : DataFrame) : list info_row :=
  map (λ c, {| Columna := label c; Tipo := dtype_str (dtype_of c);
               No_Nulos := count c; Nulos := isnull_sum c |}) (columns df).

(** An entry of [st.session_state.chat_history]: the dict
    [{"question": ..., "answer": ...}] of lines 181-184. *)
Record chat := { question : str; answer : str }.

(** The language-model client, as configured on lines 117-121. *)
Record LLM := { model : str; llm_temperature : nat; api_key : str }.

(** An agent is what [agent.invoke({"input": q})] gives for each [q]: the
    message of the exception it raises, or the dict it returns. *)
Definition Agent := str → str + gmap string str.

(** ** The world: the external libraries

    Each function gives the outcome of one external call: [inl msg] when
    the call raises an exception [e] deriving from [Exception] with
    [str(e) = msg], [inr v] when it returns [v]. *)
Record World := {
  read_csv : UploadedFile → str + DataFrame;
  read_excel : UploadedFile → str + DataFrame;
  (** [f"{df.memory_usage(deep=True).sum() / 1024:.1f}"] *)
  memory_usage_kb : DataFrame → str;
  (** the attribute [get_info_summary] of the module
      [pandas.io.formats.info]: [None] when the module has no such
      attribute, otherwise the outcome of calling it without arguments *)
  get_info_summary : option (str + unit);
  ChatOpenAI : str → nat → str → str + LLM;
  create_pandas_dataframe_agent : LLM → DataFrame → str + Agent;
}.

(** The values the widgets return in one run. The slider position [k]
    stands for the temperature [k/10]. *)
Record widgets := {
  openai_api_key : str;
  model_name : str;
  temperature : nat;
  uploaded_file : option UploadedFile;
  user_question : str;
  ask_button : bool;
  clear_button : bool;
}.

(** ** The trace of a run *)

Inductive container :=
| sidebar
| column (i : nat)
| tab (title : str)
| expander (title : str) (expanded : bool)
| spinner (text : str).

Inductive table :=
| table_df (df : DataFrame)
| table_info (rs : list info_row)
| table_describe (df : DataFrame).

#[warnings="-register-all"]
Inductive event :=
| st_set_page_config
| st_title (s : str)
| st_markdown (s : str)
| st_header (s : str)
| st_subheader (s : str)
| st_text_input (l : str) (value : str)
| st_selectbox (l : str) (value : str)
| st_slider (l : str) (value : nat)
| st_file_uploader (l : str) (value : option UploadedFile)
| st_button (l : str) (value : bool)
| st_warning (s : str)
| st_info (s : str)
| st_success (s : str)
| st_error (s : str)
| st_metric (l : str) (value : nat + str)
| st_dataframe (t : table)
| st_write (s : str)
| st_divider
| st_with (c : container) (body : list event)
| call_read_csv (f : UploadedFile)
| call_read_excel (f : UploadedFile)
| call_get_info_summary
| call_ChatOpenAI (m : str) (t : nat) (k : str)
| call_create_agent (l : LLM) (df : DataFrame)
| call_invoke (q : str) (r : str + gmap string str).

(** ** The monad *)

Inductive exn :=
| Exception (msg : str)   (* any exception deriving from Exception *)
| RerunException.         (* raised by st.rerun(); derives from BaseException *)

Inductive result (A : Type) :=
| Ok (a : A)
| Raise (e : exn).
Arguments Ok {A} a.
Arguments Raise {A} e.

Record state := State {
  session_state : gmap string (list chat);
  environ : gmap string str;
  log : list event;
}.

Definition M (A : Type) : Type := state → result A * state.

Definition ret {A} (a : A) : M A := λ s, (Ok a, s).

Definition bind {A B} (m : M A) (k : A → M B) : M B :=
  λ s, match m s with
       | (Ok a, s') => k a s'
       | (Raise e, s') => (Raise e, s')
       end.

Notation "x <- m ;; k" := (bind m (λ x, k))
  (at level 100, m at next level, right associativity).
Notation "m ;; k" := (bind m (λ _, k))
  (at level 100, right associativity).

Definition raise {A} (e : exn) : M A := λ s, (Raise e, s).

(** [try: body except Exception as e: handler(str(e))] *)
Definition try_except {A} (body : M A) (handler : str → M A) : M A :=
  λ s, match body s with
       | (Raise (Exception msg), s') => handler msg s'
       | r => r
       end.

Definition emit (e : event) : M unit :=
  λ s, (Ok tt, {| session_state := session_state s; environ := environ s;
                  log := log s ++ [e] |}).

(** [with c: body]: what the body renders goes inside the container, also
    when the body is left by an exception. *)
Definition with_ {A} (c : container) (body : M A) : M A :=
  λ s, let '(r, s') := body {| session_state := session_state s;
                               environ := environ s; log := [] |} in
       (r, {| session_state := session_state s'; environ := environ s';
              log := log s ++ [st_with c (log s')] |}).

(** An external call: recorded in the trace, then its outcome. *)
Definition external {A} (e : event) (outcome : str + A) : M A :=
  emit e ;;
  match outcome with
  | inl msg => raise (Exception msg)
  | inr v => ret v
  end.

Fixpoint for_each {A} (l : list A) (body : A → M unit) : M unit :=
  match l with
  | [] => ret tt
  | x :: l' => body x ;; for_each l' body
  end.

(** [enumerate(l, start)] *)
Fixpoint enumerate {A} (start : nat) (l : list A) : list (nat * A) :=
  match l with
  | [] => []
  | x :: l' => (start, x) :: enumerate (S start) l'
  end.

(** [st.session_state] and [os.environ] *)
Definition get_session : M (gmap string (list chat)) :=
  λ s, (Ok (session_state s), s).
Definition set_session (k : string) (v : list chat) : M unit :=
  λ s, (Ok tt, {| session_state := <[k:=v]> (session_state s);
                  environ := environ s; log := log s |}).
Definition set_environ (k : string) (v : str) : M unit :=
  λ s, (Ok tt, {| session_state := session_state s;
                  environ := <[k:=v]> (environ s); log := log s |}).

(** [st.session_state.chat_history]; an [AttributeError] when the key is
    not set (its message is abridged). *)
Definition get_chat_history : M (list chat) :=
  ss <- get_session ;;
  match ss !! "chat_history" with
  | Some h => ret h
  | None => raise (Exception (py "st.session_state has no attribute 'chat_history'"))
  end.

(** ** The widgets: each is rendered and returns the value of the run *)

Definition text_input (l value : str) : M str :=
  emit (st_text_input l value) ;; ret value.
Definition selectbox (l value : str) : M str :=
  emit (st_selectbox l value) ;; ret value.
Definition slider (l : str) (value : nat) : M nat :=
  emit (st_slider l value) ;; ret value.
Definition file_uploader (l : str) (value : option UploadedFile)
  : M (option UploadedFile) :=
  emit (st_file_uploader l value) ;; ret value.
Definition button (l : str) (value : bool) : M bool :=
  emit (st_button l value) ;; ret value.

(** [st.rerun()] *)
Definition rerun {A} : M A := raise RerunException.

(** ** main, block by block *)

(** Lines 194-203: the conversation history. *)
Definition expander_label (q : str) : str :=
  if 60 <? length q then py "❓ " ++ take 60 q ++ py "..."
  else py "❓ " ++ q.

Definition show_chat (ic : nat * chat) : M unit :=
  let '(i, c) := ic in
  with_ (expander (expander_label (question c)) (i =? 0)) (
    emit (st_write (py "**Pregunta:**")) ;;
    emit (st_write (question c)) ;;
    emit (st_write (py "**Respuesta:**")) ;;
    emit (st_write (answer c)) ;;
    emit st_divider).

Definition show_history : M unit :=
  h <- get_chat_history ;;
  match h with
  | [] => ret tt
  | _ :: _ =>
    emit (st_subheader (py "💬 Historial de conversación")) ;;
    h <- get_chat_history ;;
    for_each (enumerate 0 (reverse h)) show_chat
  end.

(** Lines 174-191: the question. *)
Definition ask (agent : Agent) (inp_ask : bool) (q : str) : M unit :=
  if inp_ask && truthy q then
    with_ (spinner (py "🔄 El agente está analizando tus datos...")) (
      try_except (
        response <- external (call_invoke q (agent q)) (agent q) ;;
        h <- get_chat_history ;;
        output <- match response !! "output" with
                  | Some a => ret a
                  | None => raise (Exception (py "'output'"))
                  end ;;
        set_session "chat_history" (h ++ [{| question := q; answer := output |}]) ;;
        rerun)
      (λ e,
        emit (st_error (py "❌ Error al procesar la pregunta: " ++ e)) ;;
        emit (st_info (py "💡 Intenta reformular tu pregunta o verifica que la columna mencionada existe en el dataset."))))
  else ret tt.

(** Lines 136-145. *)
Definition examples : list str := [
  py "¿Cuántas filas tiene el dataset?";
  py "¿Cuáles son las columnas numéricas?";
  py "Muestra un resumen estadístico de los datos";
  py "¿Hay valores nulos en el dataset?";
  py "¿Cuál es la correlación entre las variables numéricas?";
  py "Crea un gráfico de las variables más importantes";
  py "¿Cuáles son los valores únicos de [nombre_columna]?";
  py "Calcula la media, mediana y moda de [columna_numerica]"
].

(** [f"{i}"] *)
Definition decimal (i : nat) : str := py (pretty i).

(** Lines 132-148: the confirmation and the example questions. *)
Definition guidance : M unit :=
  emit (st_success (py "🎯 Agente IA inicializado correctamente")) ;;
  emit (st_subheader (py "💡 Ejemplos de preguntas que puedes hacer:")) ;;
  for_each (enumerate 1 examples)
    (λ '(i, example), emit (st_write (decimal i ++ py ". " ++ example))).

(** Lines 132-203: what runs once the agent exists. *)
Definition questions (inp : widgets) (agent : Agent) : M unit :=
  guidance ;;
  emit (st_subheader (py "❓ Haz tu pregunta sobre los datos")) ;;
  ss <- get_session ;;
  (if bool_decide (is_Some (ss !! "chat_history")) then ret tt
   else set_session "chat_history" []) ;;
  user_question <- text_input (py "Escribe tu pregunta:") (user_question inp) ;;
  ask_button <- with_ (column 1) (button (py "🚀 Preguntar") (ask_button inp)) ;;
  clear_button <- with_ (column 2) (button (py "🗑️ Limpiar historial") (clear_button inp)) ;;
  (if clear_button then set_session "chat_history" [] ;; rerun else ret tt) ;;
  ask agent ask_button user_question ;;
  show_history.

(** Lines 115-207: the agent. *)
Definition agent_section (w : World) (inp : widgets) (openai_api_key model_name : str)
    (temperature : nat) (df : DataFrame) : M unit :=
  try_except (
    llm <- external (call_ChatOpenAI model_name temperature openai_api_key)
             (ChatOpenAI w model_name temperature openai_api_key) ;;
    agent <- external (call_create_agent llm df)
               (create_pandas_dataframe_agent w llm df) ;;
    questions inp agent)
  (λ e,
    emit (st_error (py "❌ Error al inicializar el agente: " ++ e)) ;;
    emit (st_info (py "Verifica que tu API key de OpenAI sea válida y tenga créditos disponibles."))).

(** Line 95: [pd.io.formats.info.get_info_summary()]. Reading an attribute
    a module does not have raises [AttributeError]. *)
Definition info_summary (w : World) : str + unit :=
  match get_info_summary w with
  | None => inl (py "module 'pandas.io.formats.info' has no attribute 'get_info_summary'")
  | Some r => r
  end.

(** Lines 73-91: the summary and the first view. *)
Definition summary (w : World) (f : UploadedFile) (df : DataFrame) : M unit :=
  emit (st_success (py "✅ Archivo cargado exitosamente: " ++ name f)) ;;
  with_ (column 1) (emit (st_metric (py "📏 Filas") (inl (rows df)))) ;;
  with_ (column 2) (emit (st_metric (py "📊 Columnas") (inl (length (columns df))))) ;;
  with_ (column 3) (emit (st_metric (py "💾 Tamaño") (inr (memory_usage_kb w df ++ py " KB")))) ;;
  emit (st_header (py "👀 Vista previa de los datos")) ;;
  with_ (tab (py "📋 Datos")) (emit (st_dataframe (table_df (head 100 df)))).

(** Lines 93-102: the schema view. *)
Definition schema (w : World) (df : DataFrame) : M unit :=
  with_ (tab (py "📈 Información")) (
    emit (st_subheader (py "Información del Dataset")) ;;
    external call_get_info_summary (info_summary w) ;;
    emit (st_dataframe (table_info (info_df df)))).

(** Lines 104-110: the statistics view. *)
Definition statistics (df : DataFrame) : M unit :=
  with_ (tab (py "🔍 Estadísticas")) (
    emit (st_subheader (py "Estadísticas Descriptivas")) ;;
    let numeric_df := select_dtypes_number df in
    if negb (empty numeric_df) then emit (st_dataframe (table_describe numeric_df))
    else emit (st_info (py "No hay columnas numéricas para mostrar estadísticas."))).

(** Lines 73-110. *)
Definition dataset_views (w : World) (f : UploadedFile) (df : DataFrame) : M unit :=
  summary w f df ;;
  schema w df ;;
  statistics df.

(** Lines 66-211: the uploaded file. *)
Definition load (w : World) (inp : widgets) (openai_api_key model_name : str)
    (temperature : nat) (f : UploadedFile) : M unit :=
  try_except (
    df <- (if endswith (name f) (py ".csv")
           then external (call_read_csv f) (read_csv w f)
           else external (call_read_excel f) (read_excel w f)) ;;
    dataset_views w f df ;;
    emit (st_header (py "🤖 Agente de Análisis IA")) ;;
    agent_section w inp openai_api_key model_name temperature df)
  (λ e,
    emit (st_error (py "❌ Error al cargar el archivo: " ++ e)) ;;
    emit (st_info (py "Verifica que el archivo tenga el formato correcto (CSV o Excel)."))).

(** Lines 214-232: no file yet. *)
Definition about : M unit :=
  emit (st_info (py "👆 Carga un archivo CSV o Excel para comenzar el análisis.")) ;;
  emit (st_markdown (py "---")) ;;
  emit (st_subheader (py "ℹ️ Sobre esta aplicación")) ;;
  emit (st_markdown (py "
        Esta aplicación utiliza:
        - **Streamlit** para la interfaz web
        - **LangChain** para la gestión de agentes IA
        - **OpenAI GPT** para el procesamiento de lenguaje natural
        - **Pandas** para el análisis de datos
        
        **Funcionalidades:**
        - Carga archivos CSV y Excel
        - Análisis automático de datos con IA
        - Respuestas en lenguaje natural
        - Generación de estadísticas y visualizaciones
        - Historial de conversación
        ")).

(** Lines 11-46: the page and the sidebar. *)
Definition configuration (inp : widgets) : M (str * str * nat) :=
  emit st_set_page_config ;;
  emit (st_title (py "📊 Análisis de Datos con LangChain y Pandas")) ;;
  emit (st_markdown (py "**Carga tu archivo CSV/XLS y haz preguntas sobre tus datos usando IA**")) ;;
  with_ sidebar (
    emit (st_header (py "⚙️ Configuración")) ;;
    openai_api_key <- text_input (py "🔑 API Key de OpenAI:") (openai_api_key inp) ;;
    model_name <- selectbox (py "🤖 Modelo OpenAI:") (model_name inp) ;;
    temperature <- slider (py "🌡️ Temperatura:") (temperature inp) ;;
    ret (openai_api_key, model_name, temperature)).

Definition main (w : World) (inp : widgets) : M unit :=
  config <- configuration inp ;;
  let '(openai_api_key, model_name, temperature) := config in
  if negb (truthy openai_api_key) then
    emit (st_warning (py "⚠️ Por favor, ingresa tu API Key de OpenAI en la barra lateral.")) ;;
    emit (st_info (py "Puedes obtener tu API key en: https://platform.openai.com/api-keys"))
  else
    set_environ "OPENAI_API_KEY" openai_api_key ;;
    emit (st_header (py "📁 Carga tu archivo")) ;;
    uploaded_file <- file_uploader (py "Selecciona un archivo CSV o Excel:") (uploaded_file inp) ;;
    match uploaded_file with
    | Some f => load w inp openai_api_key model_name temperature f
    | None => about
    end.

(** One rerun of the script: [main] on an empty page. *)
Definition run (w : World) (inp : widgets) (ss : gmap string (list chat))
    (env : gmap string str) : result unit * state :=
  main w inp {| session_state := ss; environ := env; log := [] |}.

(** ** Observing a trace *)

(** An element and, for a container, everything inside it. *)
Fixpoint flat (e : event) : list event :=
  e :: match e with
       | st_with _ body =>
         (fix inside (l : list event) : list event :=
            match l with
            | [] => []
            | x :: l' => flat x ++ inside l'
            end) body
       | _ => []
       end.

(** Everything a run rendered or called, containers opened up. *)
Definition trace (l : list event) : list event := flat_map flat l.

Definition occurs (p : event → bool) (l : list event) : bool :=
  existsb p (trace l).

(** The expandable sections rendered at top level: title, expanded flag
    and content of each, in page order. *)
Fixpoint sections (l : list event) : list (str * bool * list event) :=
  match l with
  | [] => []
  | st_with (expander t b) body :: l' => (t, b, body) :: sections l'
  | _ :: l' => sections l'
  end.

(** Recognising parts of the page: the history, the question controls,
    the construction of the client and of the agent, the work on the
    dataset, the schema report. *)
Definition is_history (e : event) : bool :=
  match e with
  | st_with (expander _ _) _ => true
  | st_subheader s => str_eqb s (py "💬 Historial de conversación")
  | _ => false
  end.

Definition is_control (e : event) : bool :=
  match e with
  | st_button _ _ => true
  | st_text_input l _ => str_eqb l (py "Escribe tu pregunta:")
  | _ => false
  end.

Definition is_client (e : event) : bool :=
  match e with
  | call_ChatOpenAI _ _ _ | call_create_agent _ _ => true
  | _ => false
  end.

Definition is_dataset_work (e : event) : bool :=
  match e with
  | st_file_uploader _ _ | call_read_csv _ | call_read_excel _
  | call_get_info_summary | st_metric _ _ | st_dataframe _ => true
  | _ => false
  end.

Definition is_schema_report (e : event) : bool :=
  match e with st_dataframe (table_info _) => true | _ => false end.

(** The agent invocations of a run, each with its question and outcome. *)
Definition invocation (e : event) : option (str * (str + gmap string str)) :=
  match e with call_invoke q r => Some (q, r) | _ => None end.

Definition invocations (l : list event) : list (str * (str + gmap string str)) :=
  omap invocation (trace l).

(** What a block renders when it is run on an empty page. *)
Definition render {A} (m : M A) : list event := log (m (State ∅ ∅ [])).2.

(** The conversation sequence held by a session: empty until the key is
    first set (lines 154-155). *)
Definition conversation (ss : gmap string (list chat)) : list chat :=
  default [] (ss !! "chat_history").

(** The outcome of lines 68-71 and of lines 117-130. *)
Definition parse (w : World) (f : UploadedFile) : str + DataFrame :=
  if endswith (name f) (py ".csv") then read_csv w f else read_excel w f.

Definition construct (w : World) (inp : widgets) (df : DataFrame) : str + Agent :=
  match ChatOpenAI w (model_name inp) (temperature inp) (openai_api_key inp) with
  | inl e => inl e
  | inr llm => create_pandas_dataframe_agent w llm df
  end.

(** A run reaches line 132 with [agent] built over [df]: a credential is
    given, the file [f] parses to [df], the call of line 95 returns, and
    the client and the agent are constructed. *)
Record ready (w : World) (inp : widgets) (f : UploadedFile) (df : DataFrame)
    (agent : Agent) : Prop := {
  ready_key : openai_api_key inp ≠ [];
  ready_file : uploaded_file inp = Some f;
  ready_parse : parse w f = inr df;
  ready_views : info_summary w = inr tt;
  ready_agent : construct w inp df = inr agent;
}.

(** ** The parts of a page *)

(** The schema view, with and without its report. *)
Definition schema_tab (report : list event) : event :=
  st_with (tab (py "📈 Información"))
    (st_subheader (py "Información del Dataset") :: call_get_info_summary :: report).

(** What lines 58-63 and 68-71 add to the page. *)
Definition upload (inp : widgets) : list event :=
  [st_header (py "📁 Carga tu archivo");
   st_file_uploader (py "Selecciona un archivo CSV o Excel:") (uploaded_file inp)].

Definition call_read (f : UploadedFile) : event :=
  if endswith (name f) (py ".csv") then call_read_csv f else call_read_excel f.

(** The session once lines 154-155 have run. *)
Definition initialised (ss : gmap string (list chat)) : gmap string (list chat) :=
  if bool_decide (is_Some (ss !! "chat_history")) then ss
  else <["chat_history" := []]> ss.

(** What lines 151-168 add to the page. *)
Definition controls (inp : widgets) : list event :=
  [st_subheader (py "❓ Haz tu pregunta sobre los datos");
   st_text_input (py "Escribe tu pregunta:") (user_question inp);
   st_with (column 1) [st_button (py "🚀 Preguntar") (ask_button inp)];
   st_with (column 2) [st_button (py "🗑️ Limpiar historial") (clear_button inp)]].

(** What lines 194-203 add to the page for the conversation [h]. *)
Definition chat_body (c : chat) : list event :=
  [st_write (py "**Pregunta:**"); st_write (question c);
   st_write (py "**Respuesta:**"); st_write (answer c); st_divider].

Definition chat_section (ic : nat * chat) : event :=
  st_with (expander (expander_label (question ic.2)) (ic.1 =? 0)) (chat_body ic.2).

Definition history (h : list chat) : list event :=
  match h with
  | [] => []
  | _ :: _ =>
    st_subheader (py "💬 Historial de conversación")
    :: map chat_section (enumerate 0 (reverse h))
  end.

(** What the page holds once lines 132-168 have run after [l]. *)
Definition asked (inp : widgets) (l : list event) : list event :=
  l ++ render guidance ++ controls inp.

Definition waiting : container :=
  spinner (py "🔄 El agente está analizando tus datos...").

Definition rephrase_hint : event :=
  st_info (py "💡 Intenta reformular tu pregunta o verifica que la columna mencionada existe en el dataset.").

(** [os.environ] once line 55 has run. *)
Definition exported (inp : widgets) (env : gmap string str) : gmap string str :=
  <["OPENAI_API_KEY" := openai_api_key inp]> env.

(** The page down to line 91, down to line 113, and the calls of lines
    117-130. *)
Definition loaded (w : World) (inp : widgets) (f : UploadedFile) (df : DataFrame)
  : list event :=
  render (configuration inp) ++ upload inp ++ [call_read f] ++ render (summary w f df).

Definition viewed (w : World) (inp : widgets) (f : UploadedFile) (df : DataFrame)
  : list event :=
  loaded w inp f df
  ++ [schema_tab [st_dataframe (table_info (info_df df))]]
  ++ render (statistics df)
  ++ [st_header (py "🤖 Agente de Análisis IA")].

Definition client_calls (w : World) (inp : widgets) (df : DataFrame) : list event :=
  call_ChatOpenAI (model_name inp) (temperature inp) (openai_api_key inp)
  :: match ChatOpenAI w (model_name inp) (temperature inp) (openai_api_key inp) with
     | inl _ => []
     | inr llm => [call_create_agent llm df]
     end.

Definition file_hint : event :=
  st_info (py "Verifica que el archivo tenga el formato correcto (CSV o Excel).").

Definition key_hint : event :=
  st_info (py "Verifica que tu API key de OpenAI sea válida y tenga créditos disponibles.").

(** A part of the page is [plain] when it holds no history section, no
    question control and no agent invocation. *)
Record plain (l : list event) : Prop := {
  plain_sections : sections l = [];
  plain_invocations : invocations l = [];
  plain_history : occurs is_history l = false;
  plain_control : occurs is_control l = false;
}.

(** The section of an entry, as [sections] reads it off the page. *)
Definition section_of (ic : nat * chat) : str * bool * list event :=
  (expander_label (question ic.2), ic.1 =? 0, chat_body ic.2).

(** The page when line 132 is reached. *)
Definition built (w : World) (inp : widgets) (f : UploadedFile) (df : DataFrame)
  : list event :=
  viewed w inp f df ++ client_calls w inp df.

Definition is_read (e : event) : bool :=
  match e with call_read_csv _ | call_read_excel _ => true | _ => false end.

(** The calls to [pd.read_csv] and [pd.read_excel], in order. *)
Definition reads (l : list event) : list event := filter (λ e, is_read e = true) (trace l).

(** ** Sample worlds and pages *)

Module Sample.
Definition ventas : DataFrame := {|
  columns := [
    {| label := py "ciudad"; dtype_of := object_;
       cells := [Some (py "Lima"); None; Some (py "Quito")] |};
    {| label := py "ventas"; dtype_of := int64;
       cells := [Some (py "3"); Some (py "5"); Some (py "8")] |} ];
  rows := 3 |}.

Definition csv : UploadedFile := {| name := py "ventas.csv"; content := [] |}.
Definition xlsx : UploadedFile := {| name := py "ventas.xlsx"; content := [] |}.

(** An agent that answers, and one whose generated code fails. *)
Definition answers : Agent := λ _, inr {[ "output" := py "3" ]}.
Definition fails : Agent := λ _, inl (py "'precio'").

(** A world in which CSV files parse, spreadsheets do not, and the
    client and the agent are built. *)
Definition world (info : option (str + unit)) (agent : Agent) : World := {|
  read_csv _ := inr ventas;
  read_excel _ := inl (py "File is not a zip file");
  memory_usage_kb _ := py "0.4";
  get_info_summary := info;
  ChatOpenAI m t k := inr {| model := m; llm_temperature := t; api_key := k |};
  create_pandas_dataframe_agent _ _ := inr agent;
|}.

(** pandas as it is released: the module [pandas.io.formats.info] has no
    attribute [get_info_summary]. *)
Definition pandas (agent : Agent) : World := world None agent.

(** pandas with a [get_info_summary] that returns. *)
Definition patched (agent : Agent) : World := world (Some (inr tt)) agent.

Definition page (key : str) (file : option UploadedFile) (q : str)
    (ask clear : bool) : widgets := {|
  openai_api_key := key;
  model_name := py "gpt-3.5-turbo";
  temperature := 1;
  uploaded_file := file;
  user_question := q;
  ask_button := ask;
  clear_button := clear;
|}.

Definition e1 : chat := {| question := py "¿Cuántas filas tiene el dataset?"; answer := py "3" |}.
Definition e2 : chat := {| question := py "¿Hay valores nulos en el dataset?"; answer := py "Sí, uno." |}.
Definition e3 : chat := {|
  question := py "¿Cuál es la correlación entre las variables numéricas del dataset cargado?";
  answer := py "Solo hay una variable numérica." |}.

Definition session (h : list chat) : gmap string (list chat) :=
  {[ "chat_history" := h ]}.

Definition key : str := py "sk-1".
Definition q : str := py "¿Cuántas filas tiene el dataset?".

(** Sample pages: which widget holds what. *)
Definition no_key : widgets := page [] (Some csv) q true false.
Definition no_file : widgets := page key None q false false.
Definition spreadsheet : widgets := page key (Some xlsx) q false false.
Definition idle : widgets := page key (Some csv) q false false.
Definition asking : widgets := page key (Some csv) q true false.
Definition asking_nothing : widgets := page key (Some csv) [] true false.
Definition clearing : widgets := page key (Some csv) q false true.
End Sample.

(** The same page with the ask button not pressed. *)
Definition released (inp : widgets) : widgets := {|
  openai_api_key := openai_api_key inp;
  model_name := model_name inp;
  temperature := temperature inp;
  uploaded_file := uploaded_file inp;
  user_question := user_question inp;
  ask_button := false;
  clear_button := clear_button inp;
|}.

(** What lines 50-51 show. *)
Definition credential_notice : list event :=
  [st_warning (py "⚠️ Por favor, ingresa tu API Key de OpenAI en la barra lateral.");
   st_info (py "Puedes obtener tu API key en: https://platform.openai.com/api-keys")].

(** The external calls of a trace, in order. *)
Definition is_call (e : event) : bool :=
  match e with
  | call_read_csv _ | call_read_excel _ | call_get_info_summary
  | call_ChatOpenAI _ _ _ | call_create_agent _ _ | call_invoke _ _ => true
  | _ => false
  end.

Definition calls (l : list event) : list event :=
  filter (λ e, is_call e = true) (trace l).

(** The external calls of lines 68-178, each behind the conditions that
    guard it in [main]: the credential, the file, the outcome of the call
    before it, and for the invocation the two buttons and the question. *)
Definition guarded_calls (w : World) (inp : widgets) : list event :=
  if negb (truthy (openai_api_key inp)) then []
  else
    match uploaded_file inp with
    | None => []
    | Some f =>
      (if endswith (name f) (py ".csv") then call_read_csv f else call_read_excel f)
      :: match parse w f with
         | inl _ => []
         | inr df =>
           call_get_info_summary
           :: match info_summary w with
              | inl _ => []
              | inr _ =>
                call_ChatOpenAI (model_name inp) (temperature inp) (openai_api_key inp)
                :: match ChatOpenAI w (model_name inp) (temperature inp)
                           (openai_api_key inp) with
                   | inl _ => []
                   | inr llm =>
                     call_create_agent llm df
                     :: match create_pandas_dataframe_agent w llm df with
                        | inl _ => []
                        | inr agent =>
                          if negb (clear_button inp) && ask_button inp
                             && truthy (user_question inp)
                          then [call_invoke (user_question inp)
                                  (agent (user_question inp))]
                          else []
                        end
                   end
              end
         end
    end.

(** More sample worlds and pages. *)
Module More.
(** An agent whose result has no "output" key. *)
Definition silent : Agent := λ _, inr {[ "input" := py "3" ]}.

(** A world in which the client cannot be constructed. *)
Definition offline : World := {|
  read_csv _ := inr Sample.ventas;
  read_excel _ := inl (py "File is not a zip file");
  memory_usage_kb _ := py "0.4";
  get_info_summary := Some (inr tt);
  ChatOpenAI _ _ _ := inl (py "Connection error.");
  create_pandas_dataframe_agent _ _ := inr Sample.answers;
|}.

(** A dataset without numeric columns, and one with a numeric column and
    no rows. *)
Definition textual : DataFrame := {|
  columns := [ {| label := py "ciudad"; dtype_of := object_;
                  cells := [Some (py "Lima"); Some (py "Quito")] |} ];
  rows := 2 |}.
Definition hollow : DataFrame := {|
  columns := [ {| label := py "ventas"; dtype_of := int64; cells := [] |} ];
  rows := 0 |}.

(** A world whose CSV files hold no numeric column. *)
Definition texts : World := {|
  read_csv _ := inr textual;
  read_excel _ := inl (py "File is not a zip file");
  memory_usage_kb _ := py "0.2";
  get_info_summary := Some (inr tt);
  ChatOpenAI m t k := inr {| model := m; llm_temperature := t; api_key := k |};
  create_pandas_dataframe_agent _ _ := inr Sample.answers;
|}.

(** Both buttons pressed. *)
Definition both : widgets := Sample.page Sample.key (Some Sample.csv) Sample.q true true.

Definition q2 : str := py "¿Hay valores nulos en el dataset?".
Definition asking_again : widgets :=
  Sample.page Sample.key (Some Sample.csv) q2 true false.
End More.

(** ** Running the blocks *)

Arguments py : simpl never.
Arguments decimal : simpl never.

Lemma trace_app l1 l2 : trace (l1 ++ l2) = trace l1 ++ trace l2.
Proof. apply flat_map_app. Qed.

Lemma occurs_app p l1 l2 : occurs p (l1 ++ l2) = occurs p l1 || occurs p l2.
Proof. unfold occurs. by rewrite trace_app, existsb_app. Qed.

Lemma sections_app l1 l2 : sections (l1 ++ l2) = sections l1 ++ sections l2.
Proof.
  induction l1 as [|e l1 IH]; [done|]. cbn [app sections].
  destruct e; try done. destruct c; try done. by rewrite IH.
Qed.

Section steps.
Context {A B : Type}.
Implicit Types (ss : gmap string (list chat)) (env : gmap string str)
  (l t : list event).

Lemma ret_eq (a : A) s : ret a s = (Ok a, s).
Proof. done. Qed.

Lemma raise_eq e s : raise (A:=A) e s = (Raise e, s).
Proof. done. Qed.

Lemma bind_eq (m : M A) (k : A → M B) s r1 s1 r s2 :
  m s = (r1, s1) →
  match r1 with Ok a => k a s1 | Raise e => (Raise e, s1) end = (r, s2) →
  bind m k s = (r, s2).
Proof. unfold bind. intros ->. by destruct r1. Qed.

Lemma try_eq (body : M A) (handler : str → M A) s r1 s1 r s2 :
  body s = (r1, s1) →
  match r1 with
  | Raise (Exception msg) => handler msg s1
  | _ => (r1, s1)
  end = (r, s2) →
  try_except body handler s = (r, s2).
Proof. unfold try_except. intros ->. by destruct r1 as [|[]]. Qed.

Lemma with_eq c (body : M A) ss env l r ss' env' t :
  body (State ss env []) = (r, State ss' env' t) →
  with_ c body (State ss env l) = (r, State ss' env' (l ++ [st_with c t])).
Proof. unfold with_. cbn. by intros ->. Qed.

Lemma external_eq ev (o : str + A) ss env l :
  external ev o (State ss env l)
  = (match o with inl msg => Raise (Exception msg) | inr v => Ok v end,
     State ss env (l ++ [ev])).
Proof. by destruct o. Qed.
End steps.

Lemma emit_eq e ss env l : emit e (State ss env l) = (Ok tt, State ss env (l ++ [e])).
Proof. done. Qed.

Lemma get_session_eq ss env l : get_session (State ss env l) = (Ok ss, State ss env l).
Proof. done. Qed.

Lemma set_session_eq k v ss env l :
  set_session k v (State ss env l) = (Ok tt, State (<[k:=v]> ss) env l).
Proof. done. Qed.

Lemma set_environ_eq k v ss env l :
  set_environ k v (State ss env l) = (Ok tt, State ss (<[k:=v]> env) l).
Proof. done. Qed.

Lemma get_chat_history_eq ss env l h :
  ss !! "chat_history" = Some h →
  get_chat_history (State ss env l) = (Ok h, State ss env l).
Proof. intros H. unfold get_chat_history, bind, get_session. cbn [session_state]. by rewrite H. Qed.

Lemma for_each_cons {A} (x : A) l body :
  for_each (x :: l) body = (body x ;; for_each l body).
Proof. done. Qed.

Lemma for_each_nil {A} (body : A → M unit) : for_each [] body = ret tt.
Proof. done. Qed.

(** One tactic runs a block from a state [State ss env l]: it solves
    goals [m s = (r, s')], where [r] and [s'] may be still unknown. *)
Ltac run_widget :=
  unfold text_input, selectbox, slider, file_uploader, button, rerun.

Ltac block := fail.

Ltac use_hyp :=
  match goal with
  | H : ?x = _ |- context [?x] => rewrite H
  end.

Ltac exec :=
  lazymatch goal with
  | |- (_, _) = _ => reflexivity
  | |- bind _ _ _ = _ => eapply bind_eq; [exec | cbv beta iota; exec]
  | |- try_except _ _ _ = _ => eapply try_eq; [exec | cbv beta iota; exec]
  | |- with_ _ _ _ = _ => eapply with_eq; exec
  | |- external _ _ _ = _ => apply external_eq
  | |- emit _ _ = _ => apply emit_eq
  | |- ret _ _ = _ => apply ret_eq
  | |- raise _ _ = _ => apply raise_eq
  | |- get_session _ = _ => apply get_session_eq
  | |- set_session _ _ _ = _ => apply set_session_eq
  | |- set_environ _ _ _ = _ => apply set_environ_eq
  | |- for_each (_ :: _) _ _ = _ => rewrite for_each_cons; exec
  | |- for_each [] _ _ = _ => rewrite for_each_nil; exec
  | |- text_input _ _ _ = _ => run_widget; exec
  | |- selectbox _ _ _ = _ => run_widget; exec
  | |- slider _ _ _ = _ => run_widget; exec
  | |- file_uploader _ _ _ = _ => run_widget; exec
  | |- button _ _ _ = _ => run_widget; exec
  | |- rerun _ = _ => run_widget; exec
  | |- _ =>
    first [ block
          | progress (use_hyp; cbn [negb andb truthy]); cbv beta iota; exec
          | idtac ]
  end.

(** Blocks that only render: they leave the session and the environment
    alone and add what they render to the page. *)
Ltac renders :=
  intros; eapply eq_trans;
  [ exec
  | f_equal; f_equal; rewrite <- ?app_assoc; reflexivity ].

Lemma configuration_eq inp ss env l :
  configuration inp (State ss env l)
  = (Ok (openai_api_key inp, model_name inp, temperature inp),
     State ss env (l ++ render (configuration inp))).
Proof. unfold configuration at 1. renders. Qed.

Lemma about_eq ss env l :
  about (State ss env l) = (Ok tt, State ss env (l ++ render about)).
Proof. unfold about at 1. renders. Qed.

Lemma summary_eq w f df ss env l :
  summary w f df (State ss env l) = (Ok tt, State ss env (l ++ render (summary w f df))).
Proof. unfold summary at 1. renders. Qed.

Lemma statistics_eq df ss env l :
  statistics df (State ss env l) = (Ok tt, State ss env (l ++ render (statistics df))).
Proof.
  unfold render, statistics, with_, bind, emit. cbn.
  by destruct (empty (select_dtypes_number df)).
Qed.

Lemma schema_ok w df ss env l :
  info_summary w = inr tt →
  schema w df (State ss env l)
  = (Ok tt, State ss env (l ++ [schema_tab [st_dataframe (table_info (info_df df))]])).
Proof. intros H. unfold schema. rewrite H. exec. Qed.

Lemma schema_err w df ss env l e :
  info_summary w = inl e →
  schema w df (State ss env l) = (Raise (Exception e), State ss env (l ++ [schema_tab []])).
Proof. intros H. unfold schema. rewrite H. exec. Qed.

Lemma truthy_true (s : str) : s ≠ [] → truthy s = true.
Proof. by destruct s. Qed.

Lemma read_eq w f ss env l :
  (if endswith (name f) (py ".csv")
   then external (call_read_csv f) (read_csv w f)
   else external (call_read_excel f) (read_excel w f)) (State ss env l)
  = (match parse w f with inl msg => Raise (Exception msg) | inr df => Ok df end,
     State ss env (l ++ [call_read f])).
Proof.
  unfold parse, call_read. destruct (endswith _ _); apply external_eq.
Qed.

Ltac block ::=
  lazymatch goal with
  | |- configuration _ _ = _ => apply configuration_eq
  | |- about _ = _ => apply about_eq
  | |- summary _ _ _ _ = _ => apply summary_eq
  | |- statistics _ _ = _ => apply statistics_eq
  | |- schema _ _ _ = _ =>
    first [ apply schema_ok; assumption | eapply schema_err; eassumption ]
  | |- (if endswith _ _ then external _ _ else external _ _) _ = _ =>
    apply read_eq
  end.

Ltac tidy_log := repeat (progress (cbn [app]; rewrite <- ?app_assoc)).
Ltac tidy := tidy_log; reflexivity.

(** ** The question block *)

Lemma initialised_lookup ss : initialised ss !! "chat_history" = Some (conversation ss).
Proof.
  unfold initialised, conversation. case_bool_decide as H.
  - by destruct H as [h ->].
  - rewrite lookup_insert_eq. apply eq_None_not_Some in H. by rewrite H.
Qed.

Lemma conversation_initialised ss : conversation (initialised ss) = conversation ss.
Proof. unfold conversation at 1. by rewrite initialised_lookup. Qed.

Lemma conversation_insert h ss : conversation (<["chat_history" := h]> ss) = h.
Proof. unfold conversation. by rewrite lookup_insert_eq. Qed.

Lemma init_eq ss env l :
  (if bool_decide (is_Some (ss !! "chat_history")) then ret tt
   else set_session "chat_history" []) (State ss env l)
  = (Ok tt, State (initialised ss) env l).
Proof. unfold initialised. by case_bool_decide. Qed.

Lemma guidance_eq ss env l :
  guidance (State ss env l) = (Ok tt, State ss env (l ++ render guidance)).
Proof. unfold guidance at 1, examples. cbn [enumerate]. renders. Qed.

Lemma show_chat_eq ic ss env l :
  show_chat ic (State ss env l) = (Ok tt, State ss env (l ++ [chat_section ic])).
Proof. destruct ic as [i c]. unfold show_chat. exec. Qed.

Lemma show_chats_eq ics ss env l :
  for_each ics show_chat (State ss env l)
  = (Ok tt, State ss env (l ++ map chat_section ics)).
Proof.
  revert l. induction ics as [|ic ics IH]; intros l.
  - cbn. by rewrite app_nil_r.
  - rewrite for_each_cons. eapply bind_eq; [apply show_chat_eq|].
    cbv beta iota. rewrite IH. cbn [map]. by rewrite <- app_assoc.
Qed.

Lemma show_history_eq ss env l h :
  ss !! "chat_history" = Some h →
  show_history (State ss env l) = (Ok tt, State ss env (l ++ history h)).
Proof.
  intros H. unfold show_history.
  eapply bind_eq; [by apply get_chat_history_eq|]. cbv beta iota.
  destruct h as [|c h].
  - cbn. by rewrite app_nil_r.
  - eapply bind_eq; [apply emit_eq|]. cbv beta iota.
    eapply bind_eq; [by apply get_chat_history_eq|]. cbv beta iota.
    rewrite show_chats_eq. unfold history. by rewrite <- app_assoc.
Qed.

Ltac lookup :=
  first [ eassumption | apply initialised_lookup | apply lookup_insert_eq ].

Ltac block ::=
  lazymatch goal with
  | |- configuration _ _ = _ => apply configuration_eq
  | |- about _ = _ => apply about_eq
  | |- summary _ _ _ _ = _ => apply summary_eq
  | |- statistics _ _ = _ => apply statistics_eq
  | |- schema _ _ _ = _ =>
    first [ apply schema_ok; assumption | eapply schema_err; eassumption ]
  | |- (if endswith _ _ then external _ _ else external _ _) _ = _ =>
    apply read_eq
  | |- guidance _ = _ => apply guidance_eq
  | |- (if bool_decide _ then ret tt else set_session _ _) _ = _ => apply init_eq
  | |- get_chat_history _ = _ => eapply get_chat_history_eq; lookup
  | |- show_history _ = _ => eapply show_history_eq; lookup
  end.

Section questions.
Context (inp : widgets) (agent : Agent).
Context (ss : gmap string (list chat)) (env : gmap string str) (l : list event).

(** Lines 170-172. *)
Lemma questions_clear :
  clear_button inp = true →
  questions inp agent (State ss env l)
  = (Raise RerunException,
     State (<["chat_history" := []]> (initialised ss)) env (asked inp l)).
Proof.
  intros Hc. unfold questions. eapply eq_trans; [exec|].
  unfold asked, controls, rephrase_hint, waiting. rewrite Hc. tidy.
Qed.

(** Lines 174-187. *)
Lemma questions_answer resp a :
  clear_button inp = false →
  ask_button inp = true →
  (user_question inp) ≠ [] →
  agent (user_question inp) = inr resp →
  resp !! "output" = Some a →
  questions inp agent (State ss env l)
  = (Raise RerunException,
     State (<["chat_history" := conversation ss ++ [{| question := (user_question inp); answer := a |}]]>
              (initialised ss)) env
       (asked inp l ++ [st_with waiting
                    [call_invoke (user_question inp) (inr resp)]])).
Proof.
  intros Hc Hb Hq%truthy_true Ha Ho. unfold questions, ask.
  eapply eq_trans; [exec|].
  unfold asked, controls, rephrase_hint, waiting. rewrite Hc, Hb. tidy.
Qed.

(** Lines 174-178 and 189-203: the invocation raises. *)
Lemma questions_error e :
  clear_button inp = false →
  ask_button inp = true →
  (user_question inp) ≠ [] →
  agent (user_question inp) = inl e →
  questions inp agent (State ss env l)
  = (Ok tt,
     State (initialised ss) env
       (asked inp l ++ [st_with waiting
                    [call_invoke (user_question inp) (inl e);
                     st_error (py "❌ Error al procesar la pregunta: " ++ e);
                     rephrase_hint]]
              ++ history (conversation ss))).
Proof.
  intros Hc Hb Hq%truthy_true Ha. unfold questions, ask.
  eapply eq_trans; [exec|].
  unfold asked, controls, rephrase_hint, waiting. rewrite Hc, Hb. tidy.
Qed.

(** Lines 174-183 and 189-203: the result has no "output" key, and
    [response["output"]] raises [KeyError]. *)
Lemma questions_no_output resp :
  clear_button inp = false →
  ask_button inp = true →
  (user_question inp) ≠ [] →
  agent (user_question inp) = inr resp →
  resp !! "output" = None →
  questions inp agent (State ss env l)
  = (Ok tt,
     State (initialised ss) env
       (asked inp l ++ [st_with waiting
                    [call_invoke (user_question inp) (inr resp);
                     st_error (py "❌ Error al procesar la pregunta: " ++ py "'output'");
                     rephrase_hint]]
              ++ history (conversation ss))).
Proof.
  intros Hc Hb Hq%truthy_true Ha Ho. unfold questions, ask.
  eapply eq_trans; [exec|].
  unfold asked, controls, rephrase_hint, waiting. rewrite Hc, Hb. tidy.
Qed.

(** Lines 174 and 194-203: nothing is asked. *)
Lemma questions_idle :
  clear_button inp = false →
  ask_button inp && truthy (user_question inp) = false →
  questions inp agent (State ss env l)
  = (Ok tt, State (initialised ss) env (asked inp l ++ history (conversation ss))).
Proof.
  intros Hc Hb. unfold questions, ask.
  eapply eq_trans; [exec|].
  unfold asked, controls, rephrase_hint, waiting. rewrite Hc. tidy.
Qed.

(** The block ends normally or by a forced rerun: no exception leaves it. *)
Lemma questions_result :
  (questions inp agent (State ss env l)).1 = Ok tt
  ∨ (questions inp agent (State ss env l)).1 = Raise RerunException.
Proof.
  destruct (clear_button inp) eqn:Hc.
  { right. by rewrite questions_clear. }
  destruct (ask_button inp && truthy (user_question inp)) eqn:Hb.
  2: { left. by rewrite questions_idle. }
  apply andb_prop in Hb as [Hb Hq].
  assert ((user_question inp) ≠ []) as Hq' by (intros E; by rewrite E in Hq).
  destruct (agent (user_question inp)) as [e|resp] eqn:Ha.
  { left. by erewrite questions_error. }
  destruct (resp !! "output") as [a|] eqn:Ho.
  - right. by erewrite questions_answer.
  - left. by erewrite questions_no_output.
Qed.
End questions.

(** ** The paths through [main] *)

Ltac tidy ::=
  unfold exported, viewed, loaded, upload, file_hint, key_hint;
  tidy_log; reflexivity.

Section paths.
Context (w : World) (inp : widgets).
Context (ss : gmap string (list chat)) (env : gmap string str).

(** Lines 49-52. *)
Lemma run_no_key :
  openai_api_key inp = [] →
  run w inp ss env
  = (Ok tt,
     State ss env
       (render (configuration inp) ++
        [st_warning (py "⚠️ Por favor, ingresa tu API Key de OpenAI en la barra lateral.");
         st_info (py "Puedes obtener tu API key en: https://platform.openai.com/api-keys")])).
Proof.
  intros Hk. unfold run, main. eapply eq_trans; [exec|]. tidy.
Qed.

(** Lines 213-232. *)
Lemma run_no_file :
  openai_api_key inp ≠ [] →
  uploaded_file inp = None →
  run w inp ss env
  = (Ok tt,
     State ss (exported inp env)
       (render (configuration inp) ++ upload inp ++ render about)).
Proof.
  intros Hk%truthy_true Hf. unfold run, main. eapply eq_trans; [exec|].
  unfold upload. rewrite Hf. tidy.
Qed.

Context (f : UploadedFile).
Context (Hk : openai_api_key inp ≠ []) (Hf : uploaded_file inp = Some f).

(** Lines 66-71 and 209-211. *)
Lemma run_parse_failed e :
  parse w f = inl e →
  run w inp ss env
  = (Ok tt,
     State ss (exported inp env)
       (render (configuration inp) ++ upload inp
        ++ [call_read f; st_error (py "❌ Error al cargar el archivo: " ++ e); file_hint])).
Proof using Hk Hf.
  intros Hp. apply truthy_true in Hk. unfold run, main, load.
  eapply eq_trans; [exec|].
  unfold upload. rewrite Hf. tidy.
Qed.

(** Lines 66-95 and 209-211. *)
Lemma run_views_failed df e :
  parse w f = inr df →
  info_summary w = inl e →
  run w inp ss env
  = (Ok tt,
     State ss (exported inp env)
       (loaded w inp f df
        ++ [schema_tab []; st_error (py "❌ Error al cargar el archivo: " ++ e); file_hint])).
Proof using Hk Hf.
  intros Hp Hv. apply truthy_true in Hk. unfold run, main, load, dataset_views.
  eapply eq_trans; [exec|].
  unfold loaded, upload. rewrite Hf. tidy.
Qed.

(** Lines 66-130 and 205-207. *)
Lemma run_construct_failed df e :
  parse w f = inr df →
  info_summary w = inr tt →
  construct w inp df = inl e →
  run w inp ss env
  = (Ok tt,
     State ss (exported inp env)
       (viewed w inp f df ++ client_calls w inp df
        ++ [st_error (py "❌ Error al inicializar el agente: " ++ e); key_hint])).
Proof using Hk Hf.
  intros Hp Hv Hc. apply truthy_true in Hk.
  unfold run, main, load, dataset_views, agent_section.
  unfold construct in Hc. unfold client_calls.
  destruct (ChatOpenAI w _ _ _) as [e'|llm] eqn:Hl.
  - injection Hc as ->. eapply eq_trans; [exec|].
    unfold viewed, loaded, upload. rewrite Hf. tidy.
  - eapply eq_trans; [exec|].
    unfold viewed, loaded, upload. rewrite Hf. tidy.
Qed.

(** Lines 66-132: the agent is built, and the run goes on as lines
    132-203 do. *)
Lemma run_ready df agent r s' :
  parse w f = inr df →
  info_summary w = inr tt →
  construct w inp df = inr agent →
  questions inp agent
    (State ss (exported inp env) (viewed w inp f df ++ client_calls w inp df))
  = (r, s') →
  run w inp ss env = (r, s').
Proof using Hk Hf.
  intros Hp Hv Hc Hq. apply truthy_true in Hk.
  assert (r = Ok tt ∨ r = Raise RerunException) as Hr.
  { pose proof (questions_result inp agent ss (exported inp env)
      (viewed w inp f df ++ client_calls w inp df)) as H.
    by rewrite Hq in H. }
  unfold run, main, load, dataset_views, agent_section.
  unfold construct in Hc. unfold client_calls in Hq.
  destruct (ChatOpenAI w _ _ _) as [e'|llm] eqn:Hl; [done|].
  destruct Hr as [-> | ->].
  - exec.
    { etransitivity; [|exact Hq]. f_equal. f_equal.
      unfold viewed, loaded, upload. rewrite Hf. tidy. }
    all: repeat (cbv beta iota; exec).
  - exec.
    { etransitivity; [|exact Hq]. f_equal. f_equal.
      unfold viewed, loaded, upload. rewrite Hf. tidy. }
    all: repeat (cbv beta iota; exec).
Qed.
End paths.

(** ** What the parts of the page hold *)

Lemma invocations_app l1 l2 : invocations (l1 ++ l2) = invocations l1 ++ invocations l2.
Proof. unfold invocations. by rewrite trace_app, omap_app. Qed.

Lemma plain_app l1 l2 : plain l1 → plain l2 → plain (l1 ++ l2).
Proof.
  intros [S1 I1 H1 C1] [S2 I2 H2 C2]. split.
  - by rewrite sections_app, S1, S2.
  - by rewrite invocations_app, I1, I2.
  - by rewrite occurs_app, H1, H2.
  - by rewrite occurs_app, C1, C2.
Qed.

Ltac plainly := split; vm_compute; reflexivity.
Ltac plain_split :=
  repeat match goal with |- plain (_ ++ _) => apply plain_app end.

Lemma plain_configuration inp : plain (render (configuration inp)).
Proof. plainly. Qed.

Lemma plain_upload inp : plain (upload inp).
Proof. plainly. Qed.

Lemma plain_about : plain (render about).
Proof. plainly. Qed.

Lemma plain_call_read f : plain [call_read f].
Proof. unfold call_read. destruct (endswith _ _); plainly. Qed.

Lemma plain_summary w f df : plain (render (summary w f df)).
Proof. plainly. Qed.

Lemma trace_with c body : trace [st_with c body] = st_with c body :: trace body.
Proof.
  unfold trace. cbn [flat_map flat]. by rewrite app_nil_r.
Qed.

Lemma plain_tab title body : plain body → plain [st_with (tab title) body].
Proof.
  intros [S I H C]. split; [done|..]; unfold invocations, occurs in *;
    rewrite trace_with; cbn; done.
Qed.

Lemma plain_statistics df : plain (render (statistics df)).
Proof.
  unfold render, statistics, with_, bind, emit. cbn.
  destruct (empty (select_dtypes_number df)); plainly.
Qed.

Lemma plain_client_calls w inp df : plain (client_calls w inp df).
Proof. unfold client_calls. destruct (ChatOpenAI w _ _ _); plainly. Qed.

Lemma plain_guidance : plain (render guidance).
Proof. plainly. Qed.

Lemma plain_loaded w inp f df : plain (loaded w inp f df).
Proof.
  unfold loaded.
  plain_split;
    auto using plain_configuration, plain_upload, plain_call_read, plain_summary.
Qed.

Lemma plain_viewed w inp f df : plain (viewed w inp f df).
Proof.
  unfold viewed, schema_tab.
  plain_split; auto using plain_loaded, plain_statistics.
  all: plainly.
Qed.

(** Every run that does not build the agent leaves the session as it was
    and shows a plain page. *)
Lemma run_cases w inp ss env :
  (∃ f df agent, ready w inp f df agent)
  ∨ (run w inp ss env).1 = Ok tt
    ∧ session_state (run w inp ss env).2 = ss
    ∧ plain (log (run w inp ss env).2).
Proof.
  destruct (decide (openai_api_key inp = [])) as [Hk|Hk].
  { right. rewrite run_no_key by done. split; [done|split; [done|]]; cbn [snd log].
    apply plain_app; [apply plain_configuration | plainly]. }
  destruct (uploaded_file inp) as [f|] eqn:Hf.
  2: { right. rewrite run_no_file by done. split; [done|split; [done|]]; cbn [snd log].
       plain_split;
         auto using plain_configuration, plain_upload, plain_about. }
  destruct (parse w f) as [e|df] eqn:Hp.
  { right. erewrite run_parse_failed by done. split; [done|split; [done|]]; cbn [snd log].
    change (?a ++ ?b ++ ?c :: ?d) with (a ++ b ++ [c] ++ d).
    plain_split;
      auto using plain_configuration, plain_upload, plain_call_read.
    plainly. }
  destruct (info_summary w) as [e|[]] eqn:Hv.
  { right. erewrite run_views_failed by done. split; [done|split; [done|]]; cbn [snd log].
    apply plain_app; [apply plain_loaded | plainly]. }
  destruct (construct w inp df) as [e|agent] eqn:Hc.
  { right. erewrite run_construct_failed by done. split; [done|split; [done|]]; cbn [snd log].
    plain_split; auto using plain_viewed, plain_client_calls.
    plainly. }
  left. by exists f, df, agent.
Qed.

(** The question controls hold no section and no invocation. *)
Lemma asked_sections inp l : plain l → sections (asked inp l) = [].
Proof.
  intros []. unfold asked. rewrite !sections_app.
  rewrite plain_sections0, (plain_sections _ plain_guidance). done.
Qed.

Lemma asked_invocations inp l : plain l → invocations (asked inp l) = [].
Proof.
  intros []. unfold asked. rewrite !invocations_app.
  rewrite plain_invocations0, (plain_invocations _ plain_guidance).
  vm_compute. done.
Qed.

Lemma asked_history inp l : plain l → occurs is_history (asked inp l) = false.
Proof.
  intros []. unfold asked. rewrite !occurs_app.
  rewrite plain_history0, (plain_history _ plain_guidance).
  vm_compute. done.
Qed.

Lemma sections_chats ics : sections (map chat_section ics) = map section_of ics.
Proof. induction ics as [|[i c] ics IH]; [done|]. cbn. by rewrite IH. Qed.

Lemma sections_history h :
  sections (history h) = map section_of (enumerate 0 (reverse h)).
Proof.
  destruct h as [|c h]; [done|]. unfold history. cbn [sections].
  apply sections_chats.
Qed.

Lemma invocations_chats ics : invocations (map chat_section ics) = [].
Proof.
  induction ics as [|[i c] ics IH]; [done|].
  change (map chat_section ((i, c) :: ics))
    with ([chat_section (i, c)] ++ map chat_section ics).
  rewrite invocations_app, IH. unfold invocations, chat_section.
  by rewrite trace_with.
Qed.

Lemma invocations_history h : invocations (history h) = [].
Proof.
  destruct h as [|c h]; [done|]. unfold history.
  change (?e :: map chat_section ?ics) with ([e] ++ map chat_section ics).
  by rewrite invocations_app, invocations_chats.
Qed.

Lemma invocations_waiting body :
  invocations [st_with waiting body] = invocations body.
Proof. unfold invocations. by rewrite trace_with. Qed.

Lemma sections_waiting body : sections [st_with waiting body] = [].
Proof. done. Qed.

(** ** Runs that build the agent *)

Lemma plain_built w inp f df : plain (built w inp f df).
Proof. apply plain_app; auto using plain_viewed, plain_client_calls. Qed.

Lemma ready_unique w inp f df agent f' df' agent' :
  ready w inp f df agent → ready w inp f' df' agent' →
  f' = f ∧ df' = df ∧ agent' = agent.
Proof.
  intros [_ Hf Hp _ Hc] [_ Hf' Hp' _ Hc'].
  rewrite Hf in Hf'. injection Hf' as <-.
  rewrite Hp in Hp'. injection Hp' as <-.
  rewrite Hc in Hc'. by injection Hc' as <-.
Qed.

Section ready.
Context (w : World) (inp : widgets) (f : UploadedFile) (df : DataFrame)
  (agent : Agent).
Context (ss : gmap string (list chat)) (env : gmap string str).
Context (Hready : ready w inp f df agent).

Lemma ready_run r s' :
  questions inp agent (State ss (exported inp env) (built w inp f df)) = (r, s') →
  run w inp ss env = (r, s').
Proof using Hready. destruct Hready. by apply run_ready. Qed.

Lemma ready_clear :
  clear_button inp = true →
  run w inp ss env
  = (Raise RerunException,
     State (<["chat_history" := []]> (initialised ss)) (exported inp env)
       (asked inp (built w inp f df))).
Proof using Hready. intros. by apply ready_run, questions_clear. Qed.

Lemma ready_answer resp a :
  clear_button inp = false →
  ask_button inp = true →
  user_question inp ≠ [] →
  agent (user_question inp) = inr resp →
  resp !! "output" = Some a →
  run w inp ss env
  = (Raise RerunException,
     State (<["chat_history" :=
                conversation ss ++ [{| question := user_question inp; answer := a |}]]>
              (initialised ss)) (exported inp env)
       (asked inp (built w inp f df)
        ++ [st_with waiting [call_invoke (user_question inp) (inr resp)]])).
Proof using Hready. intros. by apply ready_run, questions_answer. Qed.

Lemma ready_error e :
  clear_button inp = false →
  ask_button inp = true →
  user_question inp ≠ [] →
  agent (user_question inp) = inl e →
  run w inp ss env
  = (Ok tt,
     State (initialised ss) (exported inp env)
       (asked inp (built w inp f df)
        ++ [st_with waiting
              [call_invoke (user_question inp) (inl e);
               st_error (py "❌ Error al procesar la pregunta: " ++ e);
               rephrase_hint]]
        ++ history (conversation ss))).
Proof using Hready. intros. by apply ready_run, questions_error. Qed.

Lemma ready_no_output resp :
  clear_button inp = false →
  ask_button inp = true →
  user_question inp ≠ [] →
  agent (user_question inp) = inr resp →
  resp !! "output" = None →
  run w inp ss env
  = (Ok tt,
     State (initialised ss) (exported inp env)
       (asked inp (built w inp f df)
        ++ [st_with waiting
              [call_invoke (user_question inp) (inr resp);
               st_error (py "❌ Error al procesar la pregunta: " ++ py "'output'");
               rephrase_hint]]
        ++ history (conversation ss))).
Proof using Hready. intros. by apply ready_run, questions_no_output. Qed.

Lemma ready_idle :
  clear_button inp = false →
  ask_button inp && truthy (user_question inp) = false →
  run w inp ss env
  = (Ok tt,
     State (initialised ss) (exported inp env)
       (asked inp (built w inp f df) ++ history (conversation ss))).
Proof using Hready. intros. by apply ready_run, questions_idle. Qed.

(** The invocations of a run that builds the agent: one, of the agent
    on the question, when the ask button alone is pressed with a
    question; none otherwise. *)
Lemma ready_invocations :
  invocations (log (run w inp ss env).2)
  = if negb (clear_button inp) && ask_button inp && truthy (user_question inp)
    then [(user_question inp, agent (user_question inp))]
    else [].
Proof using Hready.
  pose proof (plain_built w inp f df) as Hp.
  destruct (clear_button inp) eqn:Hc; cbn [negb andb].
  { rewrite ready_clear by done. cbn [snd log]. by apply asked_invocations. }
  destruct (ask_button inp && truthy (user_question inp)) eqn:Hb.
  2: { rewrite ready_idle by done. cbn [snd log].
       by rewrite invocations_app, asked_invocations, invocations_history. }
  apply andb_prop in Hb as [Hb Hq].
  assert (user_question inp ≠ []) as Hq' by (intros E; by rewrite E in Hq).
  destruct (agent (user_question inp)) as [e|resp] eqn:Ha.
  { erewrite ready_error by done. cbn [snd log].
    rewrite !invocations_app, asked_invocations, invocations_history by done.
    by rewrite invocations_waiting. }
  destruct (resp !! "output") as [a|] eqn:Ho.
  - erewrite ready_answer by done. cbn [snd log].
    rewrite !invocations_app, asked_invocations by done.
    by rewrite invocations_waiting.
  - erewrite ready_no_output by done. cbn [snd log].
    rewrite !invocations_app, asked_invocations, invocations_history by done.
    by rewrite invocations_waiting.
Qed.
End ready.

(** An agent is invoked only by a run that builds it, and then as
    [ready_invocations] says. *)
Lemma run_invocations w inp ss env :
  invocations (log (run w inp ss env).2) = []
  ∨ ∃ f df agent,
      ready w inp f df agent
      ∧ clear_button inp = false
      ∧ ask_button inp = true
      ∧ user_question inp ≠ []
      ∧ invocations (log (run w inp ss env).2)
        = [(user_question inp, agent (user_question inp))].
Proof.
  destruct (run_cases w inp ss env) as [(f & df & agent & Hr)|(_ & _ & [])];
    [|by left].
  rewrite (ready_invocations _ _ _ _ _ _ _ Hr).
  destruct (clear_button inp); [by left|].
  destruct (ask_button inp); [|by left].
  destruct (user_question inp) as [|c q] eqn:Hq; [by left|].
  right. exists f, df, agent. by split_and!.
Qed.

(** ** Facts about lists, strings and tables *)

Lemma enumerate_snd {A} k (l : list A) : map snd (enumerate k l) = l.
Proof. revert k. induction l as [|x l IH]; intros k; [done|]. cbn. by rewrite IH. Qed.

Lemma enumerate_length {A} k (l : list A) : length (enumerate k l) = length l.
Proof. revert k. induction l as [|x l IH]; intros k; [done|]. cbn. by rewrite IH. Qed.

Lemma enumerate_lookup {A} k (l : list A) i x :
  l !! i = Some x → enumerate k l !! i = Some (k + i, x).
Proof.
  revert k i. induction l as [|y l IH]; intros k [|i] H; try done.
  - cbn in *. rewrite Nat.add_0_r. congruence.
  - change (enumerate (S k) l !! i = Some (k + S i, x)).
    rewrite (IH (S k) i H). do 2 f_equal. lia.
Qed.

Lemma enumerate_later {A} k (l : list A) :
  map (λ ic, ic.1 =? 0) (enumerate (S k) l) = replicate (length l) false.
Proof. revert k. induction l as [|x l IH]; intros k; [done|]. cbn. by rewrite IH. Qed.

Lemma enumerate_first {A} (l : list A) :
  l ≠ [] →
  map (λ ic, ic.1 =? 0) (enumerate 0 l) = true :: replicate (length l - 1) false.
Proof.
  destruct l as [|x l]; [done|]. intros _. cbn. rewrite enumerate_later.
  by rewrite Nat.sub_0_r.
Qed.

(** [endswith] is the suffix test. *)
Lemma str_eqb_eq (s t : str) : str_eqb s t = true ↔ s = t.
Proof.
  revert t. induction s as [|a s IH]; intros [|b t]; cbn; try done.
  rewrite andb_true_iff, N.eqb_eq, IH. split.
  - by intros [-> ->].
  - intros E. by injection E.
Qed.

Lemma endswith_spec (s suffix : str) :
  endswith s suffix = true ↔ ∃ prefix, s = prefix ++ suffix.
Proof.
  unfold endswith. rewrite andb_true_iff, Nat.leb_le, str_eqb_eq. split.
  - intros [Hl Hd]. exists (take (length s - length suffix) s).
    rewrite <- Hd at 2. by rewrite take_drop.
  - intros [p ->]. rewrite length_app. split; [lia|].
    replace (length p + length suffix - length suffix) with (length p) by lia.
    by rewrite drop_app_length.
Qed.

(** The schema report has one row per column, in column order, with the
    column's name, type text and counts; the counts add up to the rows. *)
Lemma info_df_lookup df i c :
  columns df !! i = Some c →
  info_df df !! i
  = Some {| Columna := label c; Tipo := dtype_str (dtype_of c);
            No_Nulos := count c; Nulos := isnull_sum c |}.
Proof. intros H. unfold info_df. by rewrite list_lookup_fmap, H. Qed.

Lemma info_df_length df : length (info_df df) = length (columns df).
Proof. unfold info_df. by rewrite length_map. Qed.

Lemma count_isnull c : count c + isnull_sum c = length (cells c).
Proof.
  unfold count, isnull_sum. induction (cells c) as [|[x|] l IH]; [done|..].
  - rewrite filter_cons_True by done. rewrite filter_cons_False by done.
    cbn. lia.
  - rewrite filter_cons_False by (intros [? ?]; done).
    rewrite filter_cons_True by done. cbn. lia.
Qed.

(** The label of a section. *)
Lemma expander_label_long (q : str) :
  60 < length q → expander_label q = py "❓ " ++ take 60 q ++ py "...".
Proof. intros H. unfold expander_label. by apply Nat.ltb_lt in H as ->. Qed.

Lemma expander_label_short (q : str) :
  length q ≤ 60 → expander_label q = py "❓ " ++ q.
Proof.
  intros H. unfold expander_label.
  destruct (60 <? length q) eqn:E; [|done]. apply Nat.ltb_lt in E. lia.
Qed.

(** ** The parse calls of a run *)

Lemma reads_app l1 l2 : reads (l1 ++ l2) = reads l1 ++ reads l2.
Proof. unfold reads. by rewrite trace_app, filter_app. Qed.

Lemma reads_cons e l : reads (e :: l) = reads [e] ++ reads l.
Proof. apply (reads_app [e]). Qed.

Lemma reads_call_read f : reads [call_read f] = [call_read f].
Proof. unfold call_read. by destruct (endswith _ _). Qed.

Lemma reads_configuration inp : reads (render (configuration inp)) = [].
Proof. vm_compute. done. Qed.

Lemma reads_upload inp : reads (upload inp) = [].
Proof. vm_compute. done. Qed.

Lemma reads_summary w f df : reads (render (summary w f df)) = [].
Proof. vm_compute. done. Qed.

Lemma reads_schema_tab report : reads report = [] → reads [schema_tab report] = [].
Proof. unfold reads, schema_tab. rewrite trace_with. intros H. cbn. exact H. Qed.

Lemma reads_statistics df : reads (render (statistics df)) = [].
Proof.
  unfold render, statistics, with_, bind, emit. cbn.
  by destruct (empty (select_dtypes_number df)).
Qed.

Lemma reads_client_calls w inp df : reads (client_calls w inp df) = [].
Proof. unfold client_calls. by destruct (ChatOpenAI w _ _ _). Qed.

Lemma reads_guidance : reads (render guidance) = [].
Proof. vm_compute. done. Qed.

Lemma reads_controls inp : reads (controls inp) = [].
Proof. vm_compute. done. Qed.

Lemma reads_chats ics : reads (map chat_section ics) = [].
Proof.
  induction ics as [|[i c] ics IH]; [done|].
  cbn [map]. rewrite reads_cons, IH. unfold reads, chat_section.
  by rewrite trace_with.
Qed.

Lemma reads_history h : reads (history h) = [].
Proof.
  destruct h as [|c h]; [done|]. unfold history.
  by rewrite reads_cons, reads_chats.
Qed.

Lemma reads_built_rest w inp f df :
  reads (render (summary w f df)
         ++ [schema_tab [st_dataframe (table_info (info_df df))]]
         ++ render (statistics df)
         ++ [st_header (py "🤖 Agente de Análisis IA")]
         ++ client_calls w inp df) = [].
Proof.
  rewrite !reads_app, reads_summary, reads_statistics, reads_client_calls.
  by rewrite reads_schema_tab.
Qed.

Lemma built_split w inp f df :
  built w inp f df
  = (render (configuration inp) ++ upload inp ++ [call_read f])
    ++ (render (summary w f df)
        ++ [schema_tab [st_dataframe (table_info (info_df df))]]
        ++ render (statistics df)
        ++ [st_header (py "🤖 Agente de Análisis IA")]
        ++ client_calls w inp df).
Proof. unfold built, viewed, loaded. by rewrite <- !app_assoc. Qed.

(** Every run with a file reads it once, right after the uploader. *)
Lemma run_reads w inp ss env f :
  openai_api_key inp ≠ [] →
  uploaded_file inp = Some f →
  ∃ rest,
    log (run w inp ss env).2
    = (render (configuration inp) ++ upload inp ++ [call_read f]) ++ rest
    ∧ reads rest = [].
Proof.
  intros Hk Hf.
  destruct (parse w f) as [e|df] eqn:Hp.
  { erewrite run_parse_failed by done.
    exists [st_error (py "❌ Error al cargar el archivo: " ++ e); file_hint].
    split; [|done]. cbn [snd log]. by rewrite <- !app_assoc. }
  destruct (info_summary w) as [e|[]] eqn:Hv.
  { erewrite run_views_failed by done.
    exists (render (summary w f df)
            ++ [schema_tab []; st_error (py "❌ Error al cargar el archivo: " ++ e);
                file_hint]).
    split.
    - cbn [snd log]. unfold loaded. by rewrite <- !app_assoc.
    - rewrite reads_app, reads_summary. done. }
  destruct (construct w inp df) as [e|agent] eqn:Hc.
  { erewrite run_construct_failed by done.
    exists ((render (summary w f df)
             ++ [schema_tab [st_dataframe (table_info (info_df df))]]
             ++ render (statistics df)
             ++ [st_header (py "🤖 Agente de Análisis IA")]
             ++ client_calls w inp df)
            ++ [st_error (py "❌ Error al inicializar el agente: " ++ e); key_hint]).
    split.
    - cbn [snd log]. unfold viewed, loaded. by rewrite <- !app_assoc.
    - by rewrite reads_app, reads_built_rest. }
  assert (ready w inp f df agent) as Hr by done.
  assert (∀ l' tail, l' = asked inp (built w inp f df) ++ tail → reads tail = [] →
    ∃ rest, l' = (render (configuration inp) ++ upload inp ++ [call_read f]) ++ rest
            ∧ reads rest = []) as Hgo.
  { intros l' tail -> Ht.
    exists ((render (summary w f df)
             ++ [schema_tab [st_dataframe (table_info (info_df df))]]
             ++ render (statistics df)
             ++ [st_header (py "🤖 Agente de Análisis IA")]
             ++ client_calls w inp df)
            ++ render guidance ++ controls inp ++ tail).
    split.
    - unfold asked. rewrite built_split. by rewrite <- !app_assoc.
    - rewrite reads_app, reads_built_rest.
      by rewrite !reads_app, reads_guidance, reads_controls, Ht. }
  destruct (clear_button inp) eqn:Hcl.
  { rewrite (ready_clear _ _ _ _ _ _ _ Hr) by done.
    apply (Hgo _ []); [by rewrite app_nil_r|done]. }
  destruct (ask_button inp && truthy (user_question inp)) eqn:Hb'.
  2: { rewrite (ready_idle _ _ _ _ _ _ _ Hr) by done.
       eapply Hgo; [done|]. apply reads_history. }
  apply andb_prop in Hb' as [Hb' Hq].
  assert (user_question inp ≠ []) as Hq' by (intros E; by rewrite E in Hq).
  destruct (agent (user_question inp)) as [e|resp] eqn:Ha.
  { erewrite (ready_error _ _ _ _ _ _ _ Hr) by done.
    eapply Hgo; [done|]. by rewrite reads_app, reads_history. }
  destruct (resp !! "output") as [a|] eqn:Ho.
  - erewrite (ready_answer _ _ _ _ _ _ _ Hr) by done. by eapply Hgo.
  - erewrite (ready_no_output _ _ _ _ _ _ _ Hr) by done.
    eapply Hgo; [done|]. by rewrite reads_app, reads_history.
Qed.

Lemma sample_ready agent q ask clear :
  ready (Sample.patched agent) (Sample.page Sample.key (Some Sample.csv) q ask clear)
    Sample.csv Sample.ventas agent.
Proof. by split. Defined.

(** ** The properties of a rerun *)

(** What lines 11-46 render on every run. *)
Lemma configuration_renders inp :
  render (configuration inp)
  = [st_set_page_config;
     st_title (py "📊 Análisis de Datos con LangChain y Pandas");
     st_markdown (py "**Carga tu archivo CSV/XLS y haz preguntas sobre tus datos usando IA**");
     st_with sidebar
       [st_header (py "⚙️ Configuración");
        st_text_input (py "🔑 API Key de OpenAI:") (openai_api_key inp);
        st_selectbox (py "🤖 Modelo OpenAI:") (model_name inp);
        st_slider (py "🌡️ Temperatura:") (temperature inp)]].
Proof. reflexivity. Qed.

(** C3: on every rerun whose credential string is empty the run ends
    normally right after the sidebar: besides the page title and the
    sidebar, present on every run, the page shows only the warning that
    asks for a credential and the pointer to where one is obtained; the
    session and the environment are untouched, no language-model client and
    no agent is constructed, and no upload or dataset work is done,
    whatever the upload widget holds. *)
Theorem empty_credential_exits_early w inp ss env :
  openai_api_key inp = [] →
  run w inp ss env
  = (Ok tt, State ss env (render (configuration inp) ++ credential_notice))
  ∧ occurs is_client (log (run w inp ss env).2) = false
  ∧ occurs is_dataset_work (log (run w inp ss env).2) = false.
Proof.
  intros Hk. rewrite run_no_key by done. split; [done|].
  cbn [snd log]. rewrite !occurs_app. split; vm_compute; reflexivity.
Qed.

Lemma empty_credential_exits_early_witness :
  openai_api_key Sample.no_key = []
  ∧ run (Sample.pandas Sample.answers) Sample.no_key ∅ ∅
    = (Ok tt, State ∅ ∅ (render (configuration Sample.no_key) ++ credential_notice))
  ∧ occurs is_client (log (run (Sample.pandas Sample.answers) Sample.no_key ∅ ∅).2) = false
  ∧ occurs is_dataset_work
      (log (run (Sample.pandas Sample.answers) Sample.no_key ∅ ∅).2) = false.
Proof.
  split; [reflexivity|].
  apply (empty_credential_exits_early (Sample.pandas Sample.answers) Sample.no_key ∅ ∅).
  reflexivity.
Defined.

(** C5: for every uploaded file the run parses it once, right after the
    uploader, with the parser its name selects: [pd.read_csv] when the name
    ends in ".csv", [pd.read_excel] for any other name; when that parse
    raises, the page ends with the error that carries the failure detail
    and the format hint, and nothing that depends on the dataset is
    rendered. *)
Theorem upload_dispatches_on_suffix w inp ss env f :
  openai_api_key inp ≠ [] →
  uploaded_file inp = Some f →
  reads (log (run w inp ss env).2)
  = [if endswith (name f) (py ".csv") then call_read_csv f else call_read_excel f]
  ∧ ∀ e,
      (if endswith (name f) (py ".csv") then read_csv w f else read_excel w f) = inl e →
      run w inp ss env
      = (Ok tt,
         State ss (exported inp env)
           (render (configuration inp) ++ upload inp
            ++ [if endswith (name f) (py ".csv") then call_read_csv f
                else call_read_excel f;
                st_error (py "❌ Error al cargar el archivo: " ++ e);
                st_info (py "Verifica que el archivo tenga el formato correcto (CSV o Excel).")])).
Proof.
  intros Hk Hf. split.
  - destruct (run_reads w inp ss env f Hk Hf) as (rest & -> & Hrest).
    rewrite !reads_app, Hrest, reads_configuration, reads_upload, reads_call_read.
    done.
  - intros e He. by apply run_parse_failed.
Qed.

Lemma upload_dispatches_on_suffix_witness :
  openai_api_key Sample.spreadsheet ≠ []
  ∧ uploaded_file Sample.spreadsheet = Some Sample.xlsx
  ∧ reads (log (run (Sample.pandas Sample.answers) Sample.spreadsheet ∅ ∅).2)
    = [call_read_excel Sample.xlsx]
  ∧ run (Sample.pandas Sample.answers) Sample.spreadsheet ∅ ∅
    = (Ok tt,
       State ∅ (exported Sample.spreadsheet ∅)
         (render (configuration Sample.spreadsheet) ++ upload Sample.spreadsheet
          ++ [call_read_excel Sample.xlsx;
              st_error (py "❌ Error al cargar el archivo: " ++ py "File is not a zip file");
              st_info (py "Verifica que el archivo tenga el formato correcto (CSV o Excel).")])).
Proof.
  assert (openai_api_key Sample.spreadsheet ≠ []) as Hk by discriminate.
  assert (uploaded_file Sample.spreadsheet = Some Sample.xlsx) as Hf by reflexivity.
  destruct (upload_dispatches_on_suffix (Sample.pandas Sample.answers)
              Sample.spreadsheet ∅ ∅ Sample.xlsx Hk Hf) as [Hreads Hfail].
  split; [exact Hk|]. split; [exact Hf|]. split.
  - exact Hreads.
  - exact (Hfail (py "File is not a zip file") eq_refl).
Defined.

(** C10: on every rerun where no file is uploaded, or the file does not
    parse, or the construction of the client or of the agent fails, the
    stored session is left exactly as it was (the conversation is neither
    initialised nor changed) and the page holds no history section and no
    question, ask or clear control, whatever the conversation holds. *)
Theorem history_hidden_without_agent w inp ss env :
  uploaded_file inp = None
  ∨ (∃ f e, uploaded_file inp = Some f ∧ parse w f = inl e)
  ∨ (∃ f df e, uploaded_file inp = Some f ∧ parse w f = inr df
               ∧ construct w inp df = inl e) →
  session_state (run w inp ss env).2 = ss
  ∧ occurs is_history (log (run w inp ss env).2) = false
  ∧ occurs is_control (log (run w inp ss env).2) = false.
Proof.
  intros H.
  destruct (run_cases w inp ss env) as [(f & df & agent & [_ Hf Hp _ Hc])|(_ & Hs & [])];
    [exfalso|done].
  destruct H as [H|[(f' & e & H & Hp')|(f' & df' & e & H & Hp' & Hc')]];
    rewrite Hf in H; simplify_eq; congruence.
Qed.

Lemma history_hidden_without_agent_witness :
  (uploaded_file Sample.no_file = None
   ∨ (∃ f e, uploaded_file Sample.no_file = Some f
             ∧ parse (Sample.patched Sample.answers) f = inl e)
   ∨ (∃ f df e, uploaded_file Sample.no_file = Some f
                ∧ parse (Sample.patched Sample.answers) f = inr df
                ∧ construct (Sample.patched Sample.answers) Sample.no_file df = inl e))
  ∧ session_state
      (run (Sample.patched Sample.answers) Sample.no_file
         (Sample.session [Sample.e1]) ∅).2
    = Sample.session [Sample.e1]
  ∧ occurs is_history
      (log (run (Sample.patched Sample.answers) Sample.no_file
              (Sample.session [Sample.e1]) ∅).2) = false
  ∧ occurs is_control
      (log (run (Sample.patched Sample.answers) Sample.no_file
              (Sample.session [Sample.e1]) ∅).2) = false.
Proof.
  split; [left; reflexivity|].
  apply (history_hidden_without_agent (Sample.patched Sample.answers) Sample.no_file).
  left. reflexivity.
Defined.

(** C2, as the code runs on pandas: the module [pandas.io.formats.info] has
    no attribute [get_info_summary], so line 95 raises in the schema tab
    before its report is built; the exception is caught on line 209. For
    the CSV file of the sample the page ends in the file-load error with
    its format hint, the schema tab holds no per-column report, and no
    client or agent is constructed. *)
Theorem schema_view_enters_file_error :
  run (Sample.pandas Sample.answers) Sample.idle ∅ ∅
  = (Ok tt,
     State ∅ (exported Sample.idle ∅)
       (loaded (Sample.pandas Sample.answers) Sample.idle Sample.csv Sample.ventas
        ++ [st_with (tab (py "📈 Información"))
              [st_subheader (py "Información del Dataset"); call_get_info_summary];
            st_error (py "❌ Error al cargar el archivo: "
                      ++ py "module 'pandas.io.formats.info' has no attribute 'get_info_summary'");
            st_info (py "Verifica que el archivo tenga el formato correcto (CSV o Excel).")]))
  ∧ occurs is_schema_report
      (log (run (Sample.pandas Sample.answers) Sample.idle ∅ ∅).2) = false
  ∧ occurs is_client
      (log (run (Sample.pandas Sample.answers) Sample.idle ∅ ∅).2) = false.
Proof.
  assert (run (Sample.pandas Sample.answers) Sample.idle ∅ ∅
          = (Ok tt,
             State ∅ (exported Sample.idle ∅)
               (loaded (Sample.pandas Sample.answers) Sample.idle Sample.csv Sample.ventas
                ++ [schema_tab [];
                    st_error (py "❌ Error al cargar el archivo: "
                              ++ py "module 'pandas.io.formats.info' has no attribute 'get_info_summary'");
                    file_hint]))) as E.
  { by apply run_views_failed. }
  rewrite E. split; [done|]. split; vm_compute; reflexivity.
Qed.

(** The same on every world and file: when line 95 raises, the run ends
    in the file-load error and the report is not rendered. *)
Lemma schema_view_needs_summary w inp ss env f df e :
  openai_api_key inp ≠ [] →
  uploaded_file inp = Some f →
  parse w f = inr df →
  info_summary w = inl e →
  run w inp ss env
  = (Ok tt,
     State ss (exported inp env)
       (loaded w inp f df
        ++ [schema_tab []; st_error (py "❌ Error al cargar el archivo: " ++ e);
            file_hint]))
  ∧ occurs is_schema_report (log (run w inp ss env).2) = false.
Proof.
  intros Hk Hf Hp Hv. erewrite run_views_failed by done. split; [done|].
  cbn [snd log]. unfold loaded. rewrite !occurs_app.
  replace (occurs is_schema_report [call_read f]) with false
    by (unfold call_read; by destruct (endswith _ _)).
  vm_compute. reflexivity.
Qed.

(** The question block only adds to the page. *)
Lemma questions_log inp agent ss env l :
  ∃ t, log (questions inp agent (State ss env l)).2 = l ++ t.
Proof.
  destruct (clear_button inp) eqn:Hcl.
  { rewrite questions_clear by done. by exists (render guidance ++ controls inp). }
  destruct (ask_button inp && truthy (user_question inp)) eqn:Hb.
  2: { rewrite questions_idle by done.
       exists ((render guidance ++ controls inp) ++ history (conversation ss)).
       unfold asked. cbn [snd log]. by rewrite <- !app_assoc. }
  apply andb_prop in Hb as [Hb Hne].
  assert (user_question inp ≠ []) as Hq' by (intros E; by rewrite E in Hne).
  destruct (agent (user_question inp)) as [e|resp] eqn:Ha.
  { erewrite questions_error by done. unfold asked. cbn [snd log].
    rewrite <- !app_assoc. by eexists. }
  destruct (resp !! "output") as [a|] eqn:Ho.
  - erewrite questions_answer by done. unfold asked. cbn [snd log].
    rewrite <- !app_assoc. by eexists.
  - erewrite questions_no_output by done. unfold asked. cbn [snd log].
    rewrite <- !app_assoc. by eexists.
Qed.

(** Were [get_info_summary] to return, every parsed dataset would get its
    schema report: one row per column, built by [info_df]. *)
Lemma schema_view_with_summary w inp ss env f df :
  openai_api_key inp ≠ [] →
  uploaded_file inp = Some f →
  parse w f = inr df →
  info_summary w = inr tt →
  ∃ rest,
    log (run w inp ss env).2
    = loaded w inp f df
      ++ st_with (tab (py "📈 Información"))
           [st_subheader (py "Información del Dataset"); call_get_info_summary;
            st_dataframe (table_info (info_df df))]
      :: rest.
Proof.
  intros Hk Hf Hp Hv.
  destruct (construct w inp df) as [e|agent] eqn:Hc.
  { erewrite run_construct_failed by done. cbn [snd log].
    unfold viewed. rewrite <- !app_assoc. by eexists. }
  assert (ready w inp f df agent) as Hr by done.
  destruct (questions_log inp agent ss (exported inp env) (built w inp f df))
    as [t Ht].
  destruct (questions inp agent (State ss (exported inp env) (built w inp f df)))
    as [r s'] eqn:Hq.
  rewrite (ready_run _ _ _ _ _ _ _ Hr _ _ Hq). cbn [snd] in *. rewrite Ht.
  unfold built, viewed. rewrite <- !app_assoc. by eexists.
Qed.

(** A run that builds the agent and is not cut short by a rerun ends with
    the history of the stored conversation: these are its sections. *)
Lemma ready_sections w inp ss env f df agent :
  ready w inp f df agent →
  (run w inp ss env).1 = Ok tt →
  conversation (session_state (run w inp ss env).2) = conversation ss
  ∧ sections (log (run w inp ss env).2)
    = map section_of (enumerate 0 (reverse (conversation ss))).
Proof.
  intros Hr. pose proof (plain_built w inp f df) as Hp.
  destruct (clear_button inp) eqn:Hcl.
  { by rewrite (ready_clear _ _ _ _ _ _ _ Hr). }
  destruct (ask_button inp && truthy (user_question inp)) eqn:Hb.
  2: { rewrite (ready_idle _ _ _ _ _ _ _ Hr) by done. intros _. cbn [snd log session_state].
       split; [apply conversation_initialised|].
       by rewrite sections_app, asked_sections, sections_history. }
  apply andb_prop in Hb as [Hb Hne].
  assert (user_question inp ≠ []) as Hq' by (intros E; by rewrite E in Hne).
  destruct (agent (user_question inp)) as [e|resp] eqn:Ha.
  { erewrite (ready_error _ _ _ _ _ _ _ Hr) by done. intros _.
    cbn [snd log session_state]. split; [apply conversation_initialised|].
    by rewrite !sections_app, asked_sections, sections_history. }
  destruct (resp !! "output") as [a|] eqn:Ho.
  - by erewrite (ready_answer _ _ _ _ _ _ _ Hr).
  - erewrite (ready_no_output _ _ _ _ _ _ _ Hr) by done. intros _.
    cbn [snd log session_state]. split; [apply conversation_initialised|].
    by rewrite !sections_app, asked_sections, sections_history.
Qed.

(** C6: on every rerun that builds the agent and reaches line 194 with a
    non-empty conversation [h], the page holds one section per entry, the
    most recently appended entry first (the sections show the entries of
    [h] in reverse order), and the first section is expanded while all the
    others are collapsed. *)
Theorem history_newest_first w inp ss env f df agent h :
  ready w inp f df agent →
  (run w inp ss env).1 = Ok tt →
  conversation (session_state (run w inp ss env).2) = h →
  h ≠ [] →
  map snd (sections (log (run w inp ss env).2)) = map chat_body (reverse h)
  ∧ map (λ s, s.1.2) (sections (log (run w inp ss env).2))
    = true :: replicate (length h - 1) false.
Proof.
  intros Hr Hok Hh Hne.
  destruct (ready_sections w inp ss env f df agent Hr Hok) as [Hc ->].
  rewrite Hc in Hh. subst h. split.
  - rewrite map_map. unfold section_of. cbn [snd].
    rewrite <- (map_map snd chat_body). by rewrite enumerate_snd.
  - rewrite map_map. unfold section_of. cbn [fst snd].
    rewrite enumerate_first by (by intros ?%(f_equal reverse); rewrite reverse_involutive in *).
    by rewrite length_reverse.
Qed.

Lemma history_newest_first_witness :
  ready (Sample.patched Sample.answers) Sample.idle Sample.csv Sample.ventas Sample.answers
  ∧ (run (Sample.patched Sample.answers) Sample.idle
       (Sample.session [Sample.e1; Sample.e2; Sample.e3]) ∅).1 = Ok tt
  ∧ conversation
      (session_state
         (run (Sample.patched Sample.answers) Sample.idle
            (Sample.session [Sample.e1; Sample.e2; Sample.e3]) ∅).2)
    = [Sample.e1; Sample.e2; Sample.e3]
  ∧ [Sample.e1; Sample.e2; Sample.e3] ≠ []
  ∧ map snd
      (sections
         (log (run (Sample.patched Sample.answers) Sample.idle
                 (Sample.session [Sample.e1; Sample.e2; Sample.e3]) ∅).2))
    = [chat_body Sample.e3; chat_body Sample.e2; chat_body Sample.e1]
  ∧ map (λ s, s.1.2)
      (sections
         (log (run (Sample.patched Sample.answers) Sample.idle
                 (Sample.session [Sample.e1; Sample.e2; Sample.e3]) ∅).2))
    = [true; false; false].
Proof.
  assert (ready (Sample.patched Sample.answers) Sample.idle Sample.csv Sample.ventas
            Sample.answers) as Hr by apply sample_ready.
  assert ((run (Sample.patched Sample.answers) Sample.idle
             (Sample.session [Sample.e1; Sample.e2; Sample.e3]) ∅).1 = Ok tt) as Hok
    by (vm_compute; reflexivity).
  assert (conversation
            (session_state
               (run (Sample.patched Sample.answers) Sample.idle
                  (Sample.session [Sample.e1; Sample.e2; Sample.e3]) ∅).2)
          = [Sample.e1; Sample.e2; Sample.e3]) as Hh
    by (vm_compute; reflexivity).
  assert ([Sample.e1; Sample.e2; Sample.e3] ≠ []) as Hne by discriminate.
  split; [exact Hr|]. split; [exact Hok|]. split; [exact Hh|]. split; [exact Hne|].
  exact (history_newest_first _ _ _ _ _ _ _ _ Hr Hok Hh Hne).
Defined.

(** C7: on every rerun that renders the history, the section of each entry
    is labelled with the question marker glyph and a space followed by the
    first 60 characters of the question and "..." when the question is
    longer than 60 characters, and by the whole question, with nothing
    added, when it has 60 characters or fewer. *)
Theorem section_label_truncates_at_60 w inp ss env f df agent i c :
  ready w inp f df agent →
  (run w inp ss env).1 = Ok tt →
  reverse (conversation (session_state (run w inp ss env).2)) !! i = Some c →
  ∃ title expanded body,
    sections (log (run w inp ss env).2) !! i = Some (title, expanded, body)
    ∧ (60 < length (question c) →
       title = py "❓ " ++ take 60 (question c) ++ py "...")
    ∧ (length (question c) ≤ 60 → title = py "❓ " ++ question c).
Proof.
  intros Hr Hok Hi.
  destruct (ready_sections w inp ss env f df agent Hr Hok) as [Hc ->].
  rewrite Hc in Hi.
  exists (expander_label (question c)), (i =? 0), (chat_body c). split.
  - rewrite list_lookup_fmap, (enumerate_lookup 0 _ i c Hi). done.
  - split; [apply expander_label_long | apply expander_label_short].
Qed.

Lemma section_label_truncates_at_60_witness :
  ready (Sample.patched Sample.answers) Sample.idle Sample.csv Sample.ventas Sample.answers
  ∧ (run (Sample.patched Sample.answers) Sample.idle
       (Sample.session [Sample.e1; Sample.e2; Sample.e3]) ∅).1 = Ok tt
  ∧ reverse
      (conversation
         (session_state
            (run (Sample.patched Sample.answers) Sample.idle
               (Sample.session [Sample.e1; Sample.e2; Sample.e3]) ∅).2)) !! 0
    = Some Sample.e3
  ∧ ∃ title expanded body,
      sections
        (log (run (Sample.patched Sample.answers) Sample.idle
                (Sample.session [Sample.e1; Sample.e2; Sample.e3]) ∅).2) !! 0
      = Some (title, expanded, body)
      ∧ (60 < length (question Sample.e3) →
         title = py "❓ " ++ take 60 (question Sample.e3) ++ py "...")
      ∧ (length (question Sample.e3) ≤ 60 → title = py "❓ " ++ question Sample.e3).
Proof.
  assert (ready (Sample.patched Sample.answers) Sample.idle Sample.csv Sample.ventas
            Sample.answers) as Hr by apply sample_ready.
  assert ((run (Sample.patched Sample.answers) Sample.idle
             (Sample.session [Sample.e1; Sample.e2; Sample.e3]) ∅).1 = Ok tt) as Hok
    by (vm_compute; reflexivity).
  assert (reverse
            (conversation
               (session_state
                  (run (Sample.patched Sample.answers) Sample.idle
                     (Sample.session [Sample.e1; Sample.e2; Sample.e3]) ∅).2)) !! 0
          = Some Sample.e3) as Hi
    by (vm_compute; reflexivity).
  split; [exact Hr|]. split; [exact Hok|]. split; [exact Hi|].
  exact (section_label_truncates_at_60 _ _ _ _ _ _ _ _ _ Hr Hok Hi).
Defined.

(** The question of [Sample.e3] has 74 characters: its label keeps 60. *)
Example long_label :
  length (question Sample.e3) = 74
  ∧ expander_label (question Sample.e3)
    = py "❓ ¿Cuál es la correlación entre las variables numéricas del da...".
Proof. split; vm_compute; reflexivity. Qed.

Example short_label :
  length (question Sample.e1) = 32
  ∧ expander_label (question Sample.e1) = py "❓ ¿Cuántas filas tiene el dataset?".
Proof. split; vm_compute; reflexivity. Qed.

(** C8: on every rerun that builds the agent and in which the clear button
    is pressed, the stored conversation is reset to the empty sequence,
    whatever it held, and the run ends by forcing a rerun. *)
Theorem clear_resets_conversation w inp ss env f df agent :
  ready w inp f df agent →
  clear_button inp = true →
  (run w inp ss env).1 = Raise RerunException
  ∧ session_state (run w inp ss env).2 !! "chat_history" = Some []
  ∧ length (conversation (session_state (run w inp ss env).2)) = 0.
Proof.
  intros Hr Hc. rewrite (ready_clear _ _ _ _ _ _ _ Hr) by done.
  cbn [fst snd session_state]. rewrite conversation_insert, lookup_insert_eq. done.
Qed.

Lemma clear_resets_conversation_witness :
  ready (Sample.patched Sample.answers) Sample.clearing Sample.csv Sample.ventas
    Sample.answers
  ∧ clear_button Sample.clearing = true
  ∧ (run (Sample.patched Sample.answers) Sample.clearing
       (Sample.session [Sample.e1; Sample.e2]) ∅).1 = Raise RerunException
  ∧ session_state
      (run (Sample.patched Sample.answers) Sample.clearing
         (Sample.session [Sample.e1; Sample.e2]) ∅).2 !! "chat_history" = Some []
  ∧ length
      (conversation
         (session_state
            (run (Sample.patched Sample.answers) Sample.clearing
               (Sample.session [Sample.e1; Sample.e2]) ∅).2)) = 0.
Proof.
  split; [apply sample_ready|]. split; [reflexivity|].
  apply (clear_resets_conversation _ _ _ _ _ _ _ (sample_ready _ _ _ _)).
  reflexivity.
Defined.

Lemma ready_released w inp f df agent :
  ready w inp f df agent ↔ ready w (released inp) f df agent.
Proof. split; intros []; by split. Qed.

(** With an empty question the ask button changes nothing in the session:
    the run leaves it as the same run with the button not pressed does. *)
Lemma empty_question_no_effect w inp ss env :
  user_question inp = [] →
  session_state (run w inp ss env).2 = session_state (run w (released inp) ss env).2.
Proof.
  intros Hq.
  assert (∀ f df agent, ready w inp f df agent →
    session_state (run w inp ss env).2
    = session_state (run w (released inp) ss env).2) as Hready.
  { intros f df agent Hr. pose proof (proj1 (ready_released _ _ _ _ _) Hr) as Hr'.
    destruct (clear_button inp) eqn:Hc.
    - by rewrite (ready_clear _ _ _ _ _ _ _ Hr), (ready_clear _ _ _ _ _ _ _ Hr').
    - rewrite (ready_idle _ _ _ _ _ _ _ Hr) by (by rewrite ?Hq, ?andb_false_r).
      by rewrite (ready_idle _ _ _ _ _ _ _ Hr'). }
  destruct (run_cases w inp ss env) as [(f & df & agent & Hr)|(_ & Hs & _)];
    [by eapply Hready|].
  destruct (run_cases w (released inp) ss env) as [(f & df & agent & Hr)|(_ & Hs' & _)].
  - eapply Hready. by apply ready_released.
  - by rewrite Hs, Hs'.
Qed.

(** C9: on every rerun in which the ask button is pressed while the
    question text is empty no agent is invoked, and the conversation is
    left as it was: the run ends normally with the stored conversation it
    started with when the clear button is not pressed in the same rerun,
    and in every case it leaves the session as the same rerun without the
    ask button does; and whenever a run invokes an agent, the ask button
    was pressed and the question text is not empty. *)
Theorem empty_question_is_not_asked w inp ss env :
  (ask_button inp = true →
   user_question inp = [] →
   invocations (log (run w inp ss env).2) = []
   ∧ (clear_button inp = false →
      (run w inp ss env).1 = Ok tt
      ∧ conversation (session_state (run w inp ss env).2) = conversation ss)
   ∧ session_state (run w inp ss env).2
     = session_state (run w (released inp) ss env).2)
  ∧ (invocations (log (run w inp ss env).2) ≠ [] →
     ask_button inp = true ∧ user_question inp ≠ []).
Proof.
  split.
  - intros Hb Hq. split; [|split].
    + destruct (run_invocations w inp ss env) as [H|(? & ? & ? & _ & _ & _ & H & _)];
        done.
    + intros Hc.
      destruct (run_cases w inp ss env) as [(f & df & agent & Hr)|(Hok & Hs & _)].
      * rewrite (ready_idle _ _ _ _ _ _ _ Hr) by (by rewrite ?Hq, ?andb_false_r).
        split; [done|]. apply conversation_initialised.
      * by rewrite Hs.
    + by apply empty_question_no_effect.
  - intros H.
    destruct (run_invocations w inp ss env) as [H'|(? & ? & ? & _ & _ & Hb & Hq & _)];
      done.
Qed.

Lemma empty_question_is_not_asked_witness :
  ask_button Sample.asking_nothing = true
  ∧ user_question Sample.asking_nothing = []
  ∧ clear_button Sample.asking_nothing = false
  ∧ invocations
      (log (run (Sample.patched Sample.answers) Sample.asking_nothing
              (Sample.session [Sample.e1]) ∅).2) = []
  ∧ (run (Sample.patched Sample.answers) Sample.asking_nothing
       (Sample.session [Sample.e1]) ∅).1 = Ok tt
  ∧ conversation
      (session_state
         (run (Sample.patched Sample.answers) Sample.asking_nothing
            (Sample.session [Sample.e1]) ∅).2)
    = conversation (Sample.session [Sample.e1]).
Proof.
  destruct (empty_question_is_not_asked (Sample.patched Sample.answers)
              Sample.asking_nothing (Sample.session [Sample.e1]) ∅) as [H _].
  destruct (H eq_refl eq_refl) as (Hnone & Hsame & _).
  split; [reflexivity|]. split; [reflexivity|]. split; [reflexivity|].
  split; [exact Hnone|]. exact (Hsame eq_refl).
Defined.

(** C1: on every rerun that builds the agent, in which the ask button is
    pressed, the question text is not empty and the invocation of the agent
    on it returns a result with an "output" field, exactly one entry is
    appended to the stored conversation, made of the submitted text and of
    that output (the length grows by one), and the run ends by forcing a
    rerun; any following run that builds the agent with no button pressed
    then renders the updated history, the new entry first and expanded. *)
Theorem answered_question_is_appended w inp ss env f df agent resp a :
  ready w inp f df agent →
  ask_button inp = true →
  user_question inp ≠ [] →
  (user_question inp, inr resp) ∈ invocations (log (run w inp ss env).2) →
  resp !! "output" = Some a →
  (run w inp ss env).1 = Raise RerunException
  ∧ conversation (session_state (run w inp ss env).2)
    = conversation ss ++ [{| question := user_question inp; answer := a |}]
  ∧ length (conversation (session_state (run w inp ss env).2))
    = S (length (conversation ss))
  ∧ ∀ inp' env' f' df' agent',
      ready w inp' f' df' agent' →
      clear_button inp' = false →
      ask_button inp' = false →
      (run w inp' (session_state (run w inp ss env).2) env').1 = Ok tt
      ∧ sections (log (run w inp' (session_state (run w inp ss env).2) env').2) !! 0
        = Some (expander_label (user_question inp), true,
                chat_body {| question := user_question inp; answer := a |}).
Proof.
  intros Hr Hb Hq Hin Ho.
  destruct (run_invocations w inp ss env)
    as [H|(f' & df' & agent' & Hr' & Hc & _ & _ & H)]; rewrite H in Hin.
  { by apply elem_of_nil in Hin. }
  destruct (ready_unique _ _ _ _ _ _ _ _ Hr Hr') as (-> & -> & ->).
  apply list_elem_of_singleton in Hin. injection Hin as Ha. symmetry in Ha.
  clear H Hr'.
  rewrite (ready_answer _ _ _ _ _ _ _ Hr resp a) by done.
  cbn [fst snd session_state]. rewrite conversation_insert.
  split; [done|]. split; [done|]. split.
  { rewrite length_app. cbn. lia. }
  intros inp' env' f' df' agent' Hr' Hc' Hb'.
  assert ((run w inp'
             (<["chat_history" :=
                  conversation ss ++ [{| question := user_question inp; answer := a |}]]>
                (initialised ss)) env').1 = Ok tt) as Hok.
  { by rewrite (ready_idle _ _ _ _ _ _ _ Hr') by (by rewrite ?Hb'). }
  split; [exact Hok|].
  destruct (ready_sections _ _ _ _ _ _ _ Hr' Hok) as [_ ->].
  by rewrite conversation_insert, reverse_snoc.
Qed.

Lemma answered_question_is_appended_witness :
  ready (Sample.patched Sample.answers) Sample.asking Sample.csv Sample.ventas
    Sample.answers
  ∧ ask_button Sample.asking = true
  ∧ user_question Sample.asking ≠ []
  ∧ (user_question Sample.asking, inr {[ "output" := py "3" ]})
    ∈ invocations
        (log (run (Sample.patched Sample.answers) Sample.asking
                (Sample.session [Sample.e2]) ∅).2)
  ∧ ({[ "output" := py "3" ]} : gmap string str) !! "output" = Some (py "3")
  ∧ (run (Sample.patched Sample.answers) Sample.asking (Sample.session [Sample.e2]) ∅).1
    = Raise RerunException
  ∧ conversation
      (session_state
         (run (Sample.patched Sample.answers) Sample.asking
            (Sample.session [Sample.e2]) ∅).2)
    = conversation (Sample.session [Sample.e2])
      ++ [{| question := user_question Sample.asking; answer := py "3" |}].
Proof.
  assert (ready (Sample.patched Sample.answers) Sample.asking Sample.csv Sample.ventas
            Sample.answers) as Hr by apply sample_ready.
  assert (ask_button Sample.asking = true) as Hb by reflexivity.
  assert (user_question Sample.asking ≠ []) as Hq by discriminate.
  assert ((user_question Sample.asking, inr {[ "output" := py "3" ]})
          ∈ invocations
              (log (run (Sample.patched Sample.answers) Sample.asking
                      (Sample.session [Sample.e2]) ∅).2)) as Hin.
  { rewrite (ready_invocations _ _ _ _ _ _ _ Hr). apply list_elem_of_here. }
  assert (({[ "output" := py "3" ]} : gmap string str) !! "output" = Some (py "3"))
    as Ho by apply lookup_singleton_eq.
  destruct (answered_question_is_appended _ _ _ _ _ _ _ _ _ Hr Hb Hq Hin Ho)
    as (Hrerun & Happend & _).
  split; [exact Hr|]. split; [exact Hb|]. split; [exact Hq|]. split; [exact Hin|].
  split; [exact Ho|]. split; [exact Hrerun|]. exact Happend.
Defined.

(** C4: on every rerun in which the invocation of the agent raises an
    error, the run ends normally, with no rerun forced; the stored
    conversation is the one the run started with; inside the spinner the
    page shows the error that carries the failure's detail text followed by
    the hint to rephrase the question or to check the column; the history
    of the unchanged conversation follows; and the question field, still
    on the page, holds the submitted text. *)
Theorem failed_invocation_keeps_conversation w inp ss env q e :
  (q, inl e) ∈ invocations (log (run w inp ss env).2) →
  (run w inp ss env).1 = Ok tt
  ∧ conversation (session_state (run w inp ss env).2) = conversation ss
  ∧ (∃ before,
       log (run w inp ss env).2
       = before
         ++ [st_with (spinner (py "🔄 El agente está analizando tus datos..."))
               [call_invoke q (inl e);
                st_error (py "❌ Error al procesar la pregunta: " ++ e);
                st_info (py "💡 Intenta reformular tu pregunta o verifica que la columna mencionada existe en el dataset.")]]
         ++ history (conversation ss))
  ∧ q = user_question inp
  ∧ st_text_input (py "Escribe tu pregunta:") q ∈ trace (log (run w inp ss env).2).
Proof.
  intros Hin.
  destruct (run_invocations w inp ss env)
    as [H|(f & df & agent & Hr & Hc & Hb & Hq & H)]; rewrite H in Hin.
  { by apply elem_of_nil in Hin. }
  apply list_elem_of_singleton in Hin. injection Hin as -> Ha. symmetry in Ha.
  clear H. rewrite (ready_error _ _ _ _ _ _ _ Hr e) by done.
  cbn [fst snd session_state log].
  split; [done|]. split; [apply conversation_initialised|]. split; [by eexists|].
  split; [done|].
  unfold asked. rewrite !trace_app, !elem_of_app. left. right. right.
  apply list_elem_of_further, list_elem_of_here.
Qed.

Lemma failed_invocation_keeps_conversation_witness :
  (Sample.q, inl (py "'precio'"))
  ∈ invocations
      (log (run (Sample.patched Sample.fails) Sample.asking
              (Sample.session [Sample.e1]) ∅).2)
  ∧ (run (Sample.patched Sample.fails) Sample.asking (Sample.session [Sample.e1]) ∅).1
    = Ok tt
  ∧ conversation
      (session_state
         (run (Sample.patched Sample.fails) Sample.asking
            (Sample.session [Sample.e1]) ∅).2)
    = conversation (Sample.session [Sample.e1]).
Proof.
  assert ((Sample.q, inl (py "'precio'"))
          ∈ invocations
              (log (run (Sample.patched Sample.fails) Sample.asking
                      (Sample.session [Sample.e1]) ∅).2)) as Hin.
  { assert (ready (Sample.patched Sample.fails) Sample.asking Sample.csv Sample.ventas
              Sample.fails) as Hr by apply sample_ready.
    rewrite (ready_invocations _ _ _ _ _ _ _ Hr). vm_compute.
    apply list_elem_of_here. }
  destruct (failed_invocation_keeps_conversation _ _ _ _ _ _ Hin)
    as (Hok & Hsame & _).
  split; [exact Hin|]. split; [exact Hok|]. exact Hsame.
Defined.

(** When the result of the invocation has no "output" key, line 183
    raises [KeyError]: the run takes the same error path, and nothing is
    appended. *)
Lemma result_without_output w inp ss env f df agent resp :
  ready w inp f df agent →
  clear_button inp = false →
  ask_button inp = true →
  user_question inp ≠ [] →
  agent (user_question inp) = inr resp →
  resp !! "output" = None →
  (run w inp ss env).1 = Ok tt
  ∧ conversation (session_state (run w inp ss env).2) = conversation ss.
Proof.
  intros Hr Hc Hb Hq Ha Ho. rewrite (ready_no_output _ _ _ _ _ _ _ Hr resp) by done.
  split; [done|]. apply conversation_initialised.
Qed.

(** The clear button is looked at first: pressed together with the ask
    button, it empties the conversation and no agent is invoked. *)
Lemma clear_goes_first w inp ss env f df agent :
  ready w inp f df agent →
  clear_button inp = true →
  invocations (log (run w inp ss env).2) = [].
Proof.
  intros Hr Hc. rewrite (ready_invocations _ _ _ _ _ _ _ Hr). by rewrite Hc.
Qed.



(** ** How a run ends and what it leaves behind *)

(** The outcomes of a run that builds the agent, one goal for each. *)
Ltac by_outcome Hr :=
  let Hc := fresh "Hc" in
  let Hb := fresh "Hb" in
  let Hq := fresh "Hq" in
  let Ha := fresh "Ha" in
  let Ho := fresh "Ho" in
  let e := fresh "e" in
  let resp := fresh "resp" in
  let a := fresh "a" in
  lazymatch type of Hr with
  | ready ?w ?inp ?f ?df ?agent =>
    destruct (clear_button inp) eqn:Hc;
    [ rewrite (ready_clear _ _ _ _ _ _ _ Hr) by done
    | destruct (ask_button inp && truthy (user_question inp)) eqn:Hb;
      [ apply andb_prop in Hb as [Hb Hq];
        assert (user_question inp ≠ []) by (intros E; by rewrite E in Hq);
        destruct (agent (user_question inp)) as [e|resp] eqn:Ha;
        [ erewrite (ready_error _ _ _ _ _ _ _ Hr) by done
        | destruct (resp !! "output") as [a|] eqn:Ho;
          [ erewrite (ready_answer _ _ _ _ _ _ _ Hr) by done
          | erewrite (ready_no_output _ _ _ _ _ _ _ Hr) by done ] ]
      | rewrite (ready_idle _ _ _ _ _ _ _ Hr) by done ] ]
  end.

(** X1: no exception leaves [main]: whatever the libraries do and whatever
    the widgets hold, a run ends normally or by the rerun it forces. *)
Theorem run_never_fails w inp ss env :
  (run w inp ss env).1 = Ok tt ∨ (run w inp ss env).1 = Raise RerunException.
Proof.
  destruct (run_cases w inp ss env) as [(f & df & agent & Hr)|(Hok & _)];
    [|by left].
  by_outcome Hr; auto.
Qed.

(** X2: a run forces a rerun exactly when it builds the agent and either
    the clear button is pressed, or the ask button is pressed with a
    question on which the agent returns a result that has an "output"
    key. *)
Theorem rerun_forced_iff w inp ss env :
  (run w inp ss env).1 = Raise RerunException
  ↔ ∃ f df agent,
      ready w inp f df agent
      ∧ (clear_button inp = true
         ∨ (ask_button inp = true
            ∧ user_question inp ≠ []
            ∧ ∃ resp a, agent (user_question inp) = inr resp
                        ∧ resp !! "output" = Some a)).
Proof.
  split.
  - intros Hrr.
    destruct (run_cases w inp ss env) as [(f & df & agent & Hr)|(Hok & _)];
      [|congruence].
    exists f, df, agent. split; [done|]. revert Hrr.
    by_outcome Hr; cbn [fst]; intros Hrr; try discriminate Hrr.
    + by left.
    + right. split; [done|]. split; [done|]. by exists resp, a.
  - intros (f & df & agent & Hr & [Hc|(Hb & Hq & resp & a & Ha & Ho)]).
    + by rewrite (ready_clear _ _ _ _ _ _ _ Hr).
    + destruct (clear_button inp) eqn:Hc.
      * by rewrite (ready_clear _ _ _ _ _ _ _ Hr).
      * by erewrite (ready_answer _ _ _ _ _ _ _ Hr).
Qed.



(** X4: a run changes the stored conversation in two ways only: it
    empties it, or it appends one entry whose question is the text of the
    question field; otherwise the conversation is the one it started
    with. *)
Theorem conversation_cleared_or_extended w inp ss env :
  conversation (session_state (run w inp ss env).2) = conversation ss
  ∨ conversation (session_state (run w inp ss env).2) = []
  ∨ ∃ a, conversation (session_state (run w inp ss env).2)
         = conversation ss ++ [{| question := user_question inp; answer := a |}].
Proof.
  destruct (run_cases w inp ss env) as [(f & df & agent & Hr)|(_ & -> & _)];
    [|by left].
  by_outcome Hr; cbn [snd session_state];
    rewrite ?conversation_insert, ?conversation_initialised; eauto.
Qed.

(** X5: the credential is exported to the environment exactly when it is
    not empty: then [os.environ] holds it under "OPENAI_API_KEY" and is
    otherwise unchanged, whatever happens later in the run; with an empty
    credential the environment is left as it was. *)
Theorem credential_exported_iff_given w inp ss env :
  environ (run w inp ss env).2
  = if truthy (openai_api_key inp)
    then <["OPENAI_API_KEY" := openai_api_key inp]> env
    else env.
Proof.
  destruct (decide (openai_api_key inp = [])) as [Hk|Hk].
  { rewrite run_no_key by done. by rewrite Hk. }
  rewrite (truthy_true _ Hk).
  destruct (uploaded_file inp) as [f|] eqn:Hf.
  2: { by rewrite run_no_file. }
  destruct (parse w f) as [e|df] eqn:Hp.
  { by erewrite run_parse_failed. }
  destruct (info_summary w) as [e|[]] eqn:Hv.
  { by erewrite run_views_failed. }
  destruct (construct w inp df) as [e|agent] eqn:Hc.
  { by erewrite run_construct_failed. }
  assert (ready w inp f df agent) as Hr by done.
  by_outcome Hr; done.
Qed.

(** ** The external calls of a run *)

Lemma calls_app l1 l2 : calls (l1 ++ l2) = calls l1 ++ calls l2.
Proof. unfold calls. by rewrite trace_app, filter_app. Qed.

Lemma calls_cons e l : calls (e :: l) = calls [e] ++ calls l.
Proof. apply (calls_app [e]). Qed.

Lemma calls_configuration inp : calls (render (configuration inp)) = [].
Proof. vm_compute. done. Qed.

Lemma calls_upload inp : calls (upload inp) = [].
Proof. vm_compute. done. Qed.

Lemma calls_call_read f : calls [call_read f] = [call_read f].
Proof. unfold call_read. by destruct (endswith _ _). Qed.

Lemma calls_summary w f df : calls (render (summary w f df)) = [].
Proof. vm_compute. done. Qed.

Lemma calls_statistics df : calls (render (statistics df)) = [].
Proof.
  unfold render, statistics, with_, bind, emit. cbn.
  by destruct (empty (select_dtypes_number df)).
Qed.

Lemma calls_client_calls w inp df : calls (client_calls w inp df) = client_calls w inp df.
Proof. unfold client_calls. by destruct (ChatOpenAI w _ _ _). Qed.

Lemma calls_guidance : calls (render guidance) = [].
Proof. vm_compute. done. Qed.

Lemma calls_controls inp : calls (controls inp) = [].
Proof. vm_compute. done. Qed.

Lemma calls_chats ics : calls (map chat_section ics) = [].
Proof.
  induction ics as [|[i c] ics IH]; [done|].
  cbn [map]. rewrite calls_cons, IH. unfold calls, chat_section.
  by rewrite trace_with.
Qed.

Lemma calls_history h : calls (history h) = [].
Proof.
  destruct h as [|c h]; [done|]. unfold history.
  by rewrite calls_cons, calls_chats.
Qed.

Lemma calls_loaded w inp f df : calls (loaded w inp f df) = [call_read f].
Proof.
  unfold loaded.
  by rewrite !calls_app, calls_configuration, calls_upload, calls_call_read,
    calls_summary.
Qed.

Lemma calls_viewed w inp f df :
  calls (viewed w inp f df) = [call_read f; call_get_info_summary].
Proof.
  unfold viewed. rewrite !calls_app, calls_loaded, calls_statistics. done.
Qed.

Lemma calls_asked w inp f df :
  calls (asked inp (built w inp f df))
  = call_read f :: call_get_info_summary :: client_calls w inp df.
Proof.
  unfold asked, built.
  by rewrite !calls_app, calls_viewed, calls_client_calls, calls_guidance,
    calls_controls, app_nil_r.
Qed.

(** X6: the external calls of a run, in order, are the guarded ones: the
    file is read once, by the parser its name selects, only with a
    credential; line 95 is reached only when the file parses; the client is
    constructed only after that call returns, with the model, temperature
    and credential of the sidebar; the agent is created only over the
    parsed dataset with the client that was returned; and the agent is
    invoked at most once, on the text of the question field, only when the
    clear button is not pressed, the ask button is, and the text is not
    empty. The stored session and the environment play no part. *)
Theorem calls_are_guarded w inp ss env :
  calls (log (run w inp ss env).2) = guarded_calls w inp.
Proof.
  unfold guarded_calls.
  destruct (decide (openai_api_key inp = [])) as [Hk|Hk].
  { rewrite run_no_key by done. rewrite Hk. cbn [snd log negb truthy].
    by rewrite calls_app, calls_configuration. }
  rewrite (truthy_true _ Hk). cbn [negb].
  destruct (uploaded_file inp) as [f|] eqn:Hf.
  2: { rewrite run_no_file by done. cbn [snd log].
       by rewrite !calls_app, calls_configuration, calls_upload. }
  fold (call_read f).
  destruct (parse w f) as [e|df] eqn:Hp.
  { erewrite run_parse_failed by done. cbn [snd log].
    rewrite !calls_app, calls_configuration, calls_upload.
    by rewrite calls_cons, calls_call_read. }
  destruct (info_summary w) as [e|[]] eqn:Hv.
  { erewrite run_views_failed by done. cbn [snd log].
    by rewrite calls_app, calls_loaded. }
  destruct (construct w inp df) as [e|agent] eqn:Hc.
  { erewrite run_construct_failed by done. cbn [snd log].
    rewrite !calls_app, calls_viewed, calls_client_calls.
    unfold client_calls, construct in *.
    destruct (ChatOpenAI w _ _ _) as [e'|llm]; [done|]. by rewrite Hc. }
  assert (ready w inp f df agent) as Hr by done.
  assert (client_calls w inp df
          = [call_ChatOpenAI (model_name inp) (temperature inp) (openai_api_key inp);
             call_create_agent
               (match ChatOpenAI w (model_name inp) (temperature inp)
                        (openai_api_key inp) with
                | inr llm => llm
                | inl _ => {| model := []; llm_temperature := 0; api_key := [] |}
                end) df]) as Hcc.
  { unfold client_calls, construct in *. by destruct (ChatOpenAI w _ _ _). }
  unfold construct in Hc.
  destruct (ChatOpenAI w (model_name inp) (temperature inp) (openai_api_key inp))
    as [e'|llm] eqn:Hl; [done|].
  rewrite Hc.
  by_outcome Hr; cbn [snd log negb andb truthy];
    rewrite ?calls_app, ?calls_asked, ?calls_history, ?Hcc, ?app_nil_r;
    rewrite ?Hb, ?Hq; done.
Qed.

(** ** What is on the page once the file is parsed *)

Lemma summary_renders w f df :
  render (summary w f df)
  = [st_success (py "✅ Archivo cargado exitosamente: " ++ name f);
     st_with (column 1) [st_metric (py "📏 Filas") (inl (rows df))];
     st_with (column 2) [st_metric (py "📊 Columnas") (inl (length (columns df)))];
     st_with (column 3)
       [st_metric (py "💾 Tamaño") (inr (memory_usage_kb w df ++ py " KB"))];
     st_header (py "👀 Vista previa de los datos");
     st_with (tab (py "📋 Datos")) [st_dataframe (table_df (head 100 df))]].
Proof. reflexivity. Qed.

Lemma statistics_renders df :
  render (statistics df)
  = [st_with (tab (py "🔍 Estadísticas"))
       [st_subheader (py "Estadísticas Descriptivas");
        if empty (select_dtypes_number df)
        then st_info (py "No hay columnas numéricas para mostrar estadísticas.")
        else st_dataframe (table_describe (select_dtypes_number df))]].
Proof.
  unfold render, statistics, with_, bind, emit. cbn.
  by destruct (empty (select_dtypes_number df)).
Qed.

(** A run whose file parses shows the summary, whatever comes after. *)
Lemma run_loaded w inp ss env f df :
  openai_api_key inp ≠ [] →
  uploaded_file inp = Some f →
  parse w f = inr df →
  ∃ rest, log (run w inp ss env).2 = loaded w inp f df ++ rest.
Proof.
  intros Hk Hf Hp.
  destruct (info_summary w) as [e|[]] eqn:Hv.
  { erewrite run_views_failed by done. by eexists. }
  destruct (construct w inp df) as [e|agent] eqn:Hc.
  { erewrite run_construct_failed by done. cbn [snd log]. unfold viewed.
    rewrite <- !app_assoc. by eexists. }
  assert (ready w inp f df agent) as Hr by done.
  destruct (questions_log inp agent ss (exported inp env) (built w inp f df))
    as [t Ht].
  destruct (questions inp agent (State ss (exported inp env) (built w inp f df)))
    as [r s'] eqn:Hq.
  rewrite (ready_run _ _ _ _ _ _ _ Hr _ _ Hq). cbn [snd] in *. rewrite Ht.
  unfold built, viewed. rewrite <- !app_assoc. by eexists.
Qed.

(** A run in which line 95 returns shows the three views. *)
Lemma run_viewed w inp ss env f df :
  openai_api_key inp ≠ [] →
  uploaded_file inp = Some f →
  parse w f = inr df →
  info_summary w = inr tt →
  ∃ rest, log (run w inp ss env).2 = viewed w inp f df ++ rest.
Proof.
  intros Hk Hf Hp Hv.
  destruct (construct w inp df) as [e|agent] eqn:Hc.
  { erewrite run_construct_failed by done. by eexists. }
  assert (ready w inp f df agent) as Hr by done.
  destruct (questions_log inp agent ss (exported inp env) (built w inp f df))
    as [t Ht].
  destruct (questions inp agent (State ss (exported inp env) (built w inp f df)))
    as [r s'] eqn:Hq.
  rewrite (ready_run _ _ _ _ _ _ _ Hr _ _ Hq). cbn [snd] in *. rewrite Ht.
  unfold built. rewrite <- !app_assoc. by eexists.
Qed.

(** X7: every run whose file parses reports the dataset right after the
    parse call: the success message with the file name, the number of rows,
    the number of columns and the size in KB, then the preview of the first
    100 rows; this holds whatever happens further down the page. *)
Theorem parsed_dataset_is_summarised w inp ss env f df :
  openai_api_key inp ≠ [] →
  uploaded_file inp = Some f →
  parse w f = inr df →
  ∃ rest,
    log (run w inp ss env).2
    = render (configuration inp) ++ upload inp
      ++ [if endswith (name f) (py ".csv") then call_read_csv f else call_read_excel f;
          st_success (py "✅ Archivo cargado exitosamente: " ++ name f);
          st_with (column 1) [st_metric (py "📏 Filas") (inl (rows df))];
          st_with (column 2) [st_metric (py "📊 Columnas") (inl (length (columns df)))];
          st_with (column 3)
            [st_metric (py "💾 Tamaño") (inr (memory_usage_kb w df ++ py " KB"))];
          st_header (py "👀 Vista previa de los datos");
          st_with (tab (py "📋 Datos")) [st_dataframe (table_df (head 100 df))]]
      ++ rest.
Proof.
  intros Hk Hf Hp. destruct (run_loaded w inp ss env f df Hk Hf Hp) as [rest ->].
  exists rest. unfold loaded. rewrite summary_renders. fold (call_read f).
  by rewrite <- !app_assoc.
Qed.

Lemma parsed_dataset_is_summarised_witness :
  openai_api_key Sample.idle ≠ []
  ∧ uploaded_file Sample.idle = Some Sample.csv
  ∧ parse (Sample.pandas Sample.answers) Sample.csv = inr Sample.ventas
  ∧ ∃ rest,
      log (run (Sample.pandas Sample.answers) Sample.idle ∅ ∅).2
      = render (configuration Sample.idle) ++ upload Sample.idle
        ++ [call_read_csv Sample.csv;
            st_success (py "✅ Archivo cargado exitosamente: " ++ py "ventas.csv");
            st_with (column 1) [st_metric (py "📏 Filas") (inl 3)];
            st_with (column 2) [st_metric (py "📊 Columnas") (inl 2)];
            st_with (column 3) [st_metric (py "💾 Tamaño") (inr (py "0.4" ++ py " KB"))];
            st_header (py "👀 Vista previa de los datos");
            st_with (tab (py "📋 Datos")) [st_dataframe (table_df (head 100 Sample.ventas))]]
        ++ rest.
Proof.
  assert (openai_api_key Sample.idle ≠ []) as Hk by discriminate.
  assert (uploaded_file Sample.idle = Some Sample.csv) as Hf by reflexivity.
  assert (parse (Sample.pandas Sample.answers) Sample.csv = inr Sample.ventas) as Hp
    by reflexivity.
  split; [exact Hk|]. split; [exact Hf|]. split; [exact Hp|].
  exact (parsed_dataset_is_summarised _ _ ∅ ∅ _ _ Hk Hf Hp).
Defined.

(** [df.head(100)] keeps the columns and at most 100 rows. *)
Lemma head_labels n df : map label (columns (head n df)) = map label (columns df).
Proof. unfold head. cbn. by rewrite map_map. Qed.

Lemma head_dtypes n df : map dtype_of (columns (head n df)) = map dtype_of (columns df).
Proof. unfold head. cbn. by rewrite map_map. Qed.

Lemma head_cells n df c : c ∈ columns (head n df) → length (cells c) ≤ n.
Proof.
  unfold head. cbn. intros (c' & -> & _)%list_elem_of_fmap. cbn.
  rewrite length_take. lia.
Qed.

Lemma head_all n df :
  rows df ≤ n →
  (∀ c, c ∈ columns df → length (cells c) ≤ n) →
  head n df = df.
Proof.
  intros Hr Hc. destruct df as [cols r]. unfold head. cbn in *. f_equal; [|lia].
  induction cols as [|c cols IH]; [done|]. cbn. f_equal.
  - destruct c as [l d cs]. cbn. f_equal. apply take_ge.
    apply (Hc (Build_Series l d cs)). left.
  - apply IH. intros c' Hc'. apply Hc. by right.
Qed.

(** X8: the preview of every parsed dataset holds the same columns, with
    their names and types in order, cut to at most 100 rows: no column of
    the preview has more than 100 cells, and a dataset of at most 100 rows
    is previewed whole. *)
Theorem preview_is_first_100_rows w inp ss env f df :
  openai_api_key inp ≠ [] →
  uploaded_file inp = Some f →
  parse w f = inr df →
  st_with (tab (py "📋 Datos")) [st_dataframe (table_df (head 100 df))]
    ∈ log (run w inp ss env).2
  ∧ rows (head 100 df) = min 100 (rows df)
  ∧ map label (columns (head 100 df)) = map label (columns df)
  ∧ map dtype_of (columns (head 100 df)) = map dtype_of (columns df)
  ∧ (∀ c, c ∈ columns (head 100 df) → length (cells c) ≤ 100)
  ∧ (rows df ≤ 100 → (∀ c, c ∈ columns df → length (cells c) ≤ 100) →
     head 100 df = df).
Proof.
  intros Hk Hf Hp. split_and!.
  - destruct (run_loaded w inp ss env f df Hk Hf Hp) as [rest ->].
    unfold loaded. rewrite summary_renders, !elem_of_app. left. right. right. right.
    do 5 apply list_elem_of_further. apply list_elem_of_here.
  - done.
  - apply head_labels.
  - apply head_dtypes.
  - apply head_cells.
  - apply head_all.
Qed.

Lemma preview_is_first_100_rows_witness :
  openai_api_key Sample.idle ≠ []
  ∧ uploaded_file Sample.idle = Some Sample.csv
  ∧ parse (Sample.pandas Sample.answers) Sample.csv = inr Sample.ventas
  ∧ st_with (tab (py "📋 Datos")) [st_dataframe (table_df (head 100 Sample.ventas))]
      ∈ log (run (Sample.pandas Sample.answers) Sample.idle ∅ ∅).2
  ∧ head 100 Sample.ventas = Sample.ventas.
Proof.
  assert (openai_api_key Sample.idle ≠ []) as Hk by discriminate.
  assert (uploaded_file Sample.idle = Some Sample.csv) as Hf by reflexivity.
  assert (parse (Sample.pandas Sample.answers) Sample.csv = inr Sample.ventas) as Hp
    by reflexivity.
  destruct (preview_is_first_100_rows _ _ ∅ ∅ _ _ Hk Hf Hp)
    as (Hin & _ & _ & _ & _ & Hall).
  split; [exact Hk|]. split; [exact Hf|]. split; [exact Hp|]. split; [exact Hin|].
  reflexivity.
Defined.

(** [df.empty] of the numeric part: no rows, or no numeric column. *)
Lemma numeric_columns df c :
  c ∈ columns (select_dtypes_number df)
  ↔ c ∈ columns df ∧ is_number (dtype_of c) = true.
Proof. unfold select_dtypes_number. cbn. rewrite list_elem_of_filter. tauto. Qed.

Lemma numeric_empty df :
  empty (select_dtypes_number df) = true
  ↔ rows df = 0 ∨ ∀ c, c ∈ columns df → is_number (dtype_of c) = false.
Proof.
  unfold empty. cbn [rows select_dtypes_number columns].
  destruct (filter _ (columns df)) as [|c cs] eqn:E.
  - split; [|done]. intros _. right. intros c Hc.
    destruct (is_number (dtype_of c)) eqn:Hn; [|done].
    assert (c ∈ filter (λ c, is_number (dtype_of c) = true) (columns df)) as Hin
      by (by apply list_elem_of_filter).
    rewrite E in Hin. by apply elem_of_nil in Hin.
  - assert (is_number (dtype_of c) = true ∧ c ∈ columns df) as [Hn Hc].
    { apply (list_elem_of_filter (λ c, is_number (dtype_of c) = true)).
      rewrite E. left. }
    destruct (rows df) as [|n]; split; try done; auto.
    intros [?|H]; [done|]. specialize (H c Hc). congruence.
Qed.

(** X9: when line 95 returns, the statistics tab of every parsed dataset
    holds exactly one of two things: the informational message when the
    dataset has no rows or no numeric column, the descriptive statistics of
    its numeric columns (those of type int64 or float64, and only those)
    otherwise. *)
Theorem statistics_cover_numeric_columns w inp ss env f df :
  openai_api_key inp ≠ [] →
  uploaded_file inp = Some f →
  parse w f = inr df →
  info_summary w = inr tt →
  st_with (tab (py "🔍 Estadísticas"))
    [st_subheader (py "Estadísticas Descriptivas");
     if empty (select_dtypes_number df)
     then st_info (py "No hay columnas numéricas para mostrar estadísticas.")
     else st_dataframe (table_describe (select_dtypes_number df))]
    ∈ log (run w inp ss env).2
  ∧ (empty (select_dtypes_number df) = true
     ↔ rows df = 0 ∨ ∀ c, c ∈ columns df → is_number (dtype_of c) = false)
  ∧ (∀ c, c ∈ columns (select_dtypes_number df)
          ↔ c ∈ columns df ∧ (dtype_of c = int64 ∨ dtype_of c = float64)).
Proof.
  intros Hk Hf Hp Hv. split_and!.
  - destruct (run_viewed w inp ss env f df Hk Hf Hp Hv) as [rest ->].
    unfold viewed. rewrite statistics_renders, !elem_of_app. left. right. right. left.
    apply list_elem_of_here.
  - apply numeric_empty.
  - intros c. rewrite numeric_columns.
    destruct (dtype_of c); cbn; intuition congruence.
Qed.

Lemma statistics_cover_numeric_columns_witness :
  openai_api_key Sample.idle ≠ []
  ∧ uploaded_file Sample.idle = Some Sample.csv
  ∧ parse More.texts Sample.csv = inr More.textual
  ∧ info_summary More.texts = inr tt
  ∧ st_with (tab (py "🔍 Estadísticas"))
      [st_subheader (py "Estadísticas Descriptivas");
       st_info (py "No hay columnas numéricas para mostrar estadísticas.")]
      ∈ log (run More.texts Sample.idle ∅ ∅).2.
Proof.
  assert (openai_api_key Sample.idle ≠ []) as Hk by discriminate.
  assert (uploaded_file Sample.idle = Some Sample.csv) as Hf by reflexivity.
  assert (parse More.texts Sample.csv = inr More.textual) as Hp by reflexivity.
  assert (info_summary More.texts = inr tt) as Hv by reflexivity.
  destruct (statistics_cover_numeric_columns _ _ ∅ ∅ _ _ Hk Hf Hp Hv) as (Hin & _).
  split; [exact Hk|]. split; [exact Hf|]. split; [exact Hp|]. split; [exact Hv|].
  exact Hin.
Defined.

(** A numeric column without rows gets the message too. *)
Example hollow_is_empty : empty (select_dtypes_number More.hollow) = true.
Proof. reflexivity. Qed.

(** X10: when line 95 returns, the schema tab of every parsed dataset
    holds the report of lines 96-101: one row per column, in column order,
    with the column's name, the text of its type, its count of non-null
    cells and its count of null cells, the two counts adding up to the
    number of cells of the column. *)
Theorem schema_report_lists_every_column w inp ss env f df :
  openai_api_key inp ≠ [] →
  uploaded_file inp = Some f →
  parse w f = inr df →
  info_summary w = inr tt →
  st_with (tab (py "📈 Información"))
    [st_subheader (py "Información del Dataset"); call_get_info_summary;
     st_dataframe (table_info (info_df df))]
    ∈ log (run w inp ss env).2
  ∧ length (info_df df) = length (columns df)
  ∧ ∀ i c, columns df !! i = Some c →
      ∃ r, info_df df !! i = Some r
           ∧ Columna r = label c
           ∧ Tipo r = dtype_str (dtype_of c)
           ∧ No_Nulos r = length (filter (λ x, is_Some x) (cells c))
           ∧ Nulos r = length (filter (λ x, x = None) (cells c))
           ∧ No_Nulos r + Nulos r = length (cells c).
Proof.
  intros Hk Hf Hp Hv. split_and!.
  - destruct (run_viewed w inp ss env f df Hk Hf Hp Hv) as [rest ->].
    unfold viewed. rewrite !elem_of_app. left. right. left.
    apply list_elem_of_here.
  - apply info_df_length.
  - intros i c Hc. eexists. split; [by apply info_df_lookup|].
    cbn. split_and!; try done. apply count_isnull.
Qed.

Lemma schema_report_lists_every_column_witness :
  openai_api_key Sample.idle ≠ []
  ∧ uploaded_file Sample.idle = Some Sample.csv
  ∧ parse (Sample.patched Sample.answers) Sample.csv = inr Sample.ventas
  ∧ info_summary (Sample.patched Sample.answers) = inr tt
  ∧ st_with (tab (py "📈 Información"))
      [st_subheader (py "Información del Dataset"); call_get_info_summary;
       st_dataframe
         (table_info
            [{| Columna := py "ciudad"; Tipo := py "object"; No_Nulos := 2; Nulos := 1 |};
             {| Columna := py "ventas"; Tipo := py "int64"; No_Nulos := 3; Nulos := 0 |}])]
      ∈ log (run (Sample.patched Sample.answers) Sample.idle ∅ ∅).2.
Proof.
  assert (openai_api_key Sample.idle ≠ []) as Hk by discriminate.
  assert (uploaded_file Sample.idle = Some Sample.csv) as Hf by reflexivity.
  assert (parse (Sample.patched Sample.answers) Sample.csv = inr Sample.ventas) as Hp
    by reflexivity.
  assert (info_summary (Sample.patched Sample.answers) = inr tt) as Hv by reflexivity.
  destruct (schema_report_lists_every_column _ _ ∅ ∅ _ _ Hk Hf Hp Hv) as (Hin & _).
  split; [exact Hk|]. split; [exact Hf|]. split; [exact Hp|]. split; [exact Hv|].
  exact Hin.
Defined.

(** ** Failures and how they are reported *)

(** X11: the handler of line 209 also covers the views: when the call
    of line 95 raises, with whatever detail, the run ends normally and the
    page ends, right after the schema tab left without its report, with
    the file-load error that carries the detail and the format hint; the
    statistics tab is not rendered and no client or agent is
    constructed. *)
Theorem views_failure_reported_as_file_error w inp ss env f df e :
  openai_api_key inp ≠ [] →
  uploaded_file inp = Some f →
  parse w f = inr df →
  info_summary w = inl e →
  run w inp ss env
  = (Ok tt,
     State ss (exported inp env)
       (loaded w inp f df
        ++ [st_with (tab (py "📈 Información"))
              [st_subheader (py "Información del Dataset"); call_get_info_summary];
            st_error (py "❌ Error al cargar el archivo: " ++ e);
            st_info (py "Verifica que el archivo tenga el formato correcto (CSV o Excel).")]))
  ∧ occurs is_schema_report (log (run w inp ss env).2) = false
  ∧ occurs (λ e, match e with
                 | st_with (tab t) _ => str_eqb t (py "🔍 Estadísticas")
                 | _ => false
                 end) (log (run w inp ss env).2) = false
  ∧ occurs is_client (log (run w inp ss env).2) = false.
Proof.
  intros Hk Hf Hp Hv. erewrite run_views_failed by done. split; [done|].
  cbn [snd log]. unfold loaded. rewrite !occurs_app.
  unfold call_read. destruct (endswith _ _); split_and!; vm_compute; reflexivity.
Qed.

Lemma views_failure_reported_as_file_error_witness :
  openai_api_key Sample.idle ≠ []
  ∧ uploaded_file Sample.idle = Some Sample.csv
  ∧ parse (Sample.world (Some (inl (py "boom"))) Sample.answers) Sample.csv
    = inr Sample.ventas
  ∧ info_summary (Sample.world (Some (inl (py "boom"))) Sample.answers) = inl (py "boom")
  ∧ (run (Sample.world (Some (inl (py "boom"))) Sample.answers) Sample.idle ∅ ∅).1
    = Ok tt
  ∧ occurs is_client
      (log (run (Sample.world (Some (inl (py "boom"))) Sample.answers)
              Sample.idle ∅ ∅).2) = false.
Proof.
  assert (openai_api_key Sample.idle ≠ []) as Hk by discriminate.
  assert (uploaded_file Sample.idle = Some Sample.csv) as Hf by reflexivity.
  assert (parse (Sample.world (Some (inl (py "boom"))) Sample.answers) Sample.csv
          = inr Sample.ventas) as Hp by reflexivity.
  assert (info_summary (Sample.world (Some (inl (py "boom"))) Sample.answers)
          = inl (py "boom")) as Hv by reflexivity.
  destruct (views_failure_reported_as_file_error _ _ ∅ ∅ _ _ _ Hk Hf Hp Hv)
    as (Hrun & _ & _ & Hcl).
  split; [exact Hk|]. split; [exact Hf|]. split; [exact Hp|]. split; [exact Hv|].
  split; [|exact Hcl]. by rewrite Hrun.
Defined.

(** X12: when the construction of the client or of the agent raises, the
    run ends normally; the dataset views stay on the page, and the page
    ends with the error that carries the failure detail and the hint to
    check the credential; the session is left as it was. *)
Theorem construction_failure_is_reported w inp ss env f df e :
  openai_api_key inp ≠ [] →
  uploaded_file inp = Some f →
  parse w f = inr df →
  info_summary w = inr tt →
  construct w inp df = inl e →
  run w inp ss env
  = (Ok tt,
     State ss (exported inp env)
       (viewed w inp f df
        ++ client_calls w inp df
        ++ [st_error (py "❌ Error al inicializar el agente: " ++ e);
            st_info (py "Verifica que tu API key de OpenAI sea válida y tenga créditos disponibles.")]))
  ∧ (∀ e', ChatOpenAI w (model_name inp) (temperature inp) (openai_api_key inp) = inl e' →
       e' = e
       ∧ client_calls w inp df
         = [call_ChatOpenAI (model_name inp) (temperature inp) (openai_api_key inp)]).
Proof.
  intros Hk Hf Hp Hv Hc. split; [by apply run_construct_failed|].
  intros e' He'. unfold construct, client_calls in *. rewrite He' in *.
  split; [congruence|done].
Qed.

Lemma construction_failure_is_reported_witness :
  openai_api_key Sample.idle ≠ []
  ∧ uploaded_file Sample.idle = Some Sample.csv
  ∧ parse More.offline Sample.csv = inr Sample.ventas
  ∧ info_summary More.offline = inr tt
  ∧ construct More.offline Sample.idle Sample.ventas = inl (py "Connection error.")
  ∧ run More.offline Sample.idle (Sample.session [Sample.e1]) ∅
    = (Ok tt,
       State (Sample.session [Sample.e1]) (exported Sample.idle ∅)
         (viewed More.offline Sample.idle Sample.csv Sample.ventas
          ++ client_calls More.offline Sample.idle Sample.ventas
          ++ [st_error (py "❌ Error al inicializar el agente: " ++ py "Connection error.");
              st_info (py "Verifica que tu API key de OpenAI sea válida y tenga créditos disponibles.")])).
Proof.
  assert (openai_api_key Sample.idle ≠ []) as Hk by discriminate.
  assert (uploaded_file Sample.idle = Some Sample.csv) as Hf by reflexivity.
  assert (parse More.offline Sample.csv = inr Sample.ventas) as Hp by reflexivity.
  assert (info_summary More.offline = inr tt) as Hv by reflexivity.
  assert (construct More.offline Sample.idle Sample.ventas
          = inl (py "Connection error.")) as Hc by reflexivity.
  split; [exact Hk|]. split; [exact Hf|]. split; [exact Hp|]. split; [exact Hv|].
  split; [exact Hc|].
  exact (proj1 (construction_failure_is_reported _ _ (Sample.session [Sample.e1]) ∅
                  _ _ _ Hk Hf Hp Hv Hc)).
Defined.

(** X13: when the invocation returns a result without an "output" key,
    line 183 raises [KeyError] and the run takes the error path of the
    question: the page shows the error with the missing key as detail and
    the hint, nothing is appended to the conversation, and no rerun is
    forced. *)
Theorem missing_output_is_reported w inp ss env f df agent resp :
  ready w inp f df agent →
  clear_button inp = false →
  ask_button inp = true →
  user_question inp ≠ [] →
  agent (user_question inp) = inr resp →
  resp !! "output" = None →
  (run w inp ss env).1 = Ok tt
  ∧ conversation (session_state (run w inp ss env).2) = conversation ss
  ∧ ∃ before,
      log (run w inp ss env).2
      = before
        ++ [st_with (spinner (py "🔄 El agente está analizando tus datos..."))
              [call_invoke (user_question inp) (inr resp);
               st_error (py "❌ Error al procesar la pregunta: " ++ py "'output'");
               st_info (py "💡 Intenta reformular tu pregunta o verifica que la columna mencionada existe en el dataset.")]]
        ++ history (conversation ss).
Proof.
  intros Hr Hc Hb Hq Ha Ho. rewrite (ready_no_output _ _ _ _ _ _ _ Hr resp) by done.
  cbn [fst snd session_state log].
  split; [done|]. split; [apply conversation_initialised|]. by eexists.
Qed.

Lemma missing_output_is_reported_witness :
  ready (Sample.patched More.silent) Sample.asking Sample.csv Sample.ventas More.silent
  ∧ clear_button Sample.asking = false
  ∧ ask_button Sample.asking = true
  ∧ user_question Sample.asking ≠ []
  ∧ More.silent (user_question Sample.asking) = inr {[ "input" := py "3" ]}
  ∧ ({[ "input" := py "3" ]} : gmap string str) !! "output" = None
  ∧ (run (Sample.patched More.silent) Sample.asking (Sample.session [Sample.e1]) ∅).1
    = Ok tt
  ∧ conversation
      (session_state
         (run (Sample.patched More.silent) Sample.asking (Sample.session [Sample.e1]) ∅).2)
    = conversation (Sample.session [Sample.e1]).
Proof.
  assert (ready (Sample.patched More.silent) Sample.asking Sample.csv Sample.ventas
            More.silent) as Hr by apply sample_ready.
  assert (user_question Sample.asking ≠ []) as Hq by discriminate.
  assert (({[ "input" := py "3" ]} : gmap string str) !! "output" = None) as Ho
    by (by apply lookup_singleton_ne).
  destruct (missing_output_is_reported _ _ (Sample.session [Sample.e1]) ∅ _ _ _ _
              Hr eq_refl eq_refl Hq eq_refl Ho) as (Hok & Hsame & _).
  split; [exact Hr|]. split; [reflexivity|]. split; [reflexivity|].
  split; [exact Hq|]. split; [reflexivity|]. split; [exact Ho|].
  split; [exact Hok|]. exact Hsame.
Defined.

(** X14: with a credential and no file the run ends normally after the
    uploader with the static guidance of lines 214-232, which begins with
    the prompt to upload a file: the session is untouched, and the page
    holds no dataset element, no question control and no history. *)
Theorem no_file_shows_guidance w inp ss env :
  openai_api_key inp ≠ [] →
  uploaded_file inp = None →
  run w inp ss env
  = (Ok tt,
     State ss (exported inp env)
       (render (configuration inp)
        ++ [st_header (py "📁 Carga tu archivo");
            st_file_uploader (py "Selecciona un archivo CSV o Excel:") None]
        ++ render about))
  ∧ (∃ panel,
       render about
       = st_info (py "👆 Carga un archivo CSV o Excel para comenzar el análisis.") :: panel
       ∧ length panel = 3)
  ∧ occurs (λ e, match e with st_metric _ _ | st_dataframe _ => true | _ => false end)
      (log (run w inp ss env).2) = false
  ∧ occurs is_control (log (run w inp ss env).2) = false
  ∧ occurs is_history (log (run w inp ss env).2) = false.
Proof.
  intros Hk Hf. rewrite run_no_file by done. unfold upload. rewrite Hf.
  split; [done|]. split; [by eexists|]. cbn [snd log].
  rewrite !occurs_app. split_and!; vm_compute; reflexivity.
Qed.

Lemma no_file_shows_guidance_witness :
  openai_api_key Sample.no_file ≠ []
  ∧ uploaded_file Sample.no_file = None
  ∧ run (Sample.pandas Sample.answers) Sample.no_file (Sample.session [Sample.e1]) ∅
    = (Ok tt,
       State (Sample.session [Sample.e1]) (exported Sample.no_file ∅)
         (render (configuration Sample.no_file)
          ++ [st_header (py "📁 Carga tu archivo");
              st_file_uploader (py "Selecciona un archivo CSV o Excel:") None]
          ++ render about)).
Proof.
  assert (openai_api_key Sample.no_file ≠ []) as Hk by discriminate.
  split; [exact Hk|]. split; [reflexivity|].
  exact (proj1 (no_file_shows_guidance (Sample.pandas Sample.answers) Sample.no_file
                  (Sample.session [Sample.e1]) ∅ Hk eq_refl)).
Defined.

(** ** The session across reruns *)

Lemma initialised_set ss : is_Some (initialised ss !! "chat_history").
Proof. rewrite initialised_lookup. by eexists. Qed.

Lemma initialised_idem ss : initialised (initialised ss) = initialised ss.
Proof.
  unfold initialised at 1. case_bool_decide as H; [done|].
  destruct H. apply initialised_set.
Qed.

Lemma initialised_insert h ss :
  initialised (<["chat_history" := h]> ss) = <["chat_history" := h]> ss.
Proof.
  unfold initialised. case_bool_decide as H; [done|].
  destruct H. rewrite lookup_insert_eq. by eexists.
Qed.



(** X16: a rerun without an action settles: after a run with no button
    pressed, running the same page again on the session it left, under any
    environment, leaves that session unchanged. *)
Theorem rerun_without_action_is_stable w inp ss env env' :
  clear_button inp = false →
  ask_button inp = false →
  session_state (run w inp (session_state (run w inp ss env).2) env').2
  = session_state (run w inp ss env).2.
Proof.
  intros Hc Hb.
  destruct (run_cases w inp ss env) as [(f & df & agent & Hr)|(_ & Hs & _)].
  - rewrite (ready_idle _ _ _ _ _ ss env Hr) by (by rewrite ?Hb).
    cbn [snd session_state].
    rewrite (ready_idle _ _ _ _ _ _ _ Hr) by (by rewrite ?Hb).
    apply initialised_idem.
  - rewrite Hs.
    destruct (run_cases w inp ss env') as [(f & df & agent & Hr)|(_ & Hs' & _)];
      [|done].
    rewrite (ready_idle _ _ _ _ _ ss env Hr) in Hs by (by rewrite ?Hb).
    rewrite (ready_idle _ _ _ _ _ _ _ Hr) by (by rewrite ?Hb).
    cbn [snd session_state] in *. exact Hs.
Qed.

Lemma rerun_without_action_is_stable_witness :
  clear_button Sample.idle = false
  ∧ ask_button Sample.idle = false
  ∧ session_state
      (run (Sample.patched Sample.answers) Sample.idle
         (session_state (run (Sample.patched Sample.answers) Sample.idle ∅ ∅).2) ∅).2
    = session_state (run (Sample.patched Sample.answers) Sample.idle ∅ ∅).2.
Proof.
  split; [reflexivity|]. split; [reflexivity|].
  exact (rerun_without_action_is_stable (Sample.patched Sample.answers) Sample.idle
           ∅ ∅ ∅ eq_refl eq_refl).
Defined.

(** X17: clearing, then the rerun: after a run in which the clear button
    is pressed, a following run that builds the agent with no button
    pressed ends normally and renders no history at all, neither the
    subheader nor a section. *)
Theorem cleared_history_is_not_rendered w inp ss env f df agent
    inp' env' f' df' agent' :
  ready w inp f df agent →
  clear_button inp = true →
  ready w inp' f' df' agent' →
  clear_button inp' = false →
  ask_button inp' = false →
  (run w inp' (session_state (run w inp ss env).2) env').1 = Ok tt
  ∧ occurs is_history
      (log (run w inp' (session_state (run w inp ss env).2) env').2) = false
  ∧ sections (log (run w inp' (session_state (run w inp ss env).2) env').2) = [].
Proof.
  intros Hr Hc Hr' Hc' Hb'. rewrite (ready_clear _ _ _ _ _ _ _ Hr) by done.
  cbn [snd session_state].
  rewrite (ready_idle _ _ _ _ _ _ _ Hr') by (by rewrite ?Hb').
  cbn [fst snd log]. rewrite conversation_insert. cbn [history].
  rewrite app_nil_r. pose proof (plain_built w inp' f' df') as Hp.
  split; [done|]. split; [by apply asked_history | by apply asked_sections].
Qed.

Lemma cleared_history_is_not_rendered_witness :
  ready (Sample.patched Sample.answers) Sample.clearing Sample.csv Sample.ventas
    Sample.answers
  ∧ clear_button Sample.clearing = true
  ∧ ready (Sample.patched Sample.answers) Sample.idle Sample.csv Sample.ventas
      Sample.answers
  ∧ clear_button Sample.idle = false
  ∧ ask_button Sample.idle = false
  ∧ sections
      (log (run (Sample.patched Sample.answers) Sample.idle
              (session_state
                 (run (Sample.patched Sample.answers) Sample.clearing
                    (Sample.session [Sample.e1; Sample.e2]) ∅).2) ∅).2) = [].
Proof.
  assert (ready (Sample.patched Sample.answers) Sample.clearing Sample.csv Sample.ventas
            Sample.answers) as Hr by apply sample_ready.
  assert (ready (Sample.patched Sample.answers) Sample.idle Sample.csv Sample.ventas
            Sample.answers) as Hr' by apply sample_ready.
  destruct (cleared_history_is_not_rendered _ _ (Sample.session [Sample.e1; Sample.e2])
              ∅ _ _ _ _ ∅ _ _ _ Hr eq_refl Hr' eq_refl eq_refl) as (_ & _ & Hs).
  split; [exact Hr|]. split; [reflexivity|]. split; [exact Hr'|].
  split; [reflexivity|]. split; [reflexivity|]. exact Hs.
Defined.

(** X18: answers are stored in the order of asking: two answered
    questions in consecutive runs leave the conversation extended by the
    first entry and then the second, each with its own question and
    output. *)
Theorem answers_stored_in_asking_order w ss env env'
    inp1 f1 df1 agent1 resp1 a1 inp2 f2 df2 agent2 resp2 a2 :
  ready w inp1 f1 df1 agent1 →
  clear_button inp1 = false → ask_button inp1 = true → user_question inp1 ≠ [] →
  agent1 (user_question inp1) = inr resp1 → resp1 !! "output" = Some a1 →
  ready w inp2 f2 df2 agent2 →
  clear_button inp2 = false → ask_button inp2 = true → user_question inp2 ≠ [] →
  agent2 (user_question inp2) = inr resp2 → resp2 !! "output" = Some a2 →
  conversation
    (session_state (run w inp2 (session_state (run w inp1 ss env).2) env').2)
  = conversation ss
    ++ [{| question := user_question inp1; answer := a1 |};
        {| question := user_question inp2; answer := a2 |}].
Proof.
  intros Hr1 Hc1 Hb1 Hq1 Ha1 Ho1 Hr2 Hc2 Hb2 Hq2 Ha2 Ho2.
  rewrite (ready_answer _ _ _ _ _ _ _ Hr1 resp1 a1) by done.
  cbn [snd session_state].
  rewrite (ready_answer _ _ _ _ _ _ _ Hr2 resp2 a2) by done.
  cbn [snd session_state]. rewrite !conversation_insert.
  by rewrite <- app_assoc.
Qed.

Lemma answers_stored_in_asking_order_witness :
  ready (Sample.patched Sample.answers) Sample.asking Sample.csv Sample.ventas
    Sample.answers
  ∧ ready (Sample.patched Sample.answers) More.asking_again Sample.csv Sample.ventas
      Sample.answers
  ∧ conversation
      (session_state
         (run (Sample.patched Sample.answers) More.asking_again
            (session_state
               (run (Sample.patched Sample.answers) Sample.asking ∅ ∅).2) ∅).2)
    = conversation ∅
      ++ [{| question := user_question Sample.asking; answer := py "3" |};
          {| question := user_question More.asking_again; answer := py "3" |}].
Proof.
  assert (ready (Sample.patched Sample.answers) Sample.asking Sample.csv Sample.ventas
            Sample.answers) as Hr1 by apply sample_ready.
  assert (ready (Sample.patched Sample.answers) More.asking_again Sample.csv
            Sample.ventas Sample.answers) as Hr2 by apply sample_ready.
  assert (clear_button Sample.asking = false) as Hc1 by reflexivity.
  assert (ask_button Sample.asking = true) as Hb1 by reflexivity.
  assert (user_question Sample.asking ≠ []) as Hq1 by discriminate.
  assert (Sample.answers (user_question Sample.asking)
          = inr {[ "output" := py "3" ]}) as Ha1 by reflexivity.
  assert (clear_button More.asking_again = false) as Hc2 by reflexivity.
  assert (ask_button More.asking_again = true) as Hb2 by reflexivity.
  assert (user_question More.asking_again ≠ []) as Hq2 by discriminate.
  assert (Sample.answers (user_question More.asking_again)
          = inr {[ "output" := py "3" ]}) as Ha2 by reflexivity.
  assert (({[ "output" := py "3" ]} : gmap string str) !! "output" = Some (py "3"))
    as Ho by apply lookup_singleton_eq.
  split; [exact Hr1|]. split; [exact Hr2|].
  apply (answers_stored_in_asking_order (Sample.patched Sample.answers) ∅ ∅ ∅
           Sample.asking Sample.csv Sample.ventas Sample.answers
           {[ "output" := py "3" ]} (py "3")
           More.asking_again Sample.csv Sample.ventas Sample.answers
           {[ "output" := py "3" ]} (py "3")
           Hr1 Hc1 Hb1 Hq1 Ha1 Ho Hr2 Hc2 Hb2 Hq2 Ha2 Ho).
Defined.

(** The label of a section: it begins with the question marker glyph
    and a space, it has the length of the question plus 2 when the
    question has at most 60 characters and 65 characters otherwise, and
    what follows the marker begins with the first 60 characters of the
    question. *)
Lemma expander_label_bounds (q : str) :
  take 2 (expander_label q) = py "❓ "
  ∧ length (expander_label q) = (if 60 <? length q then 65 else 2 + length q)
  ∧ length (expander_label q) ≤ 65
  ∧ take (min 60 (length q)) (drop 2 (expander_label q)) = take 60 q.
Proof.
  assert (length (py "❓ ") = 2) as H2 by reflexivity.
  assert (length (py "...") = 3) as H3 by reflexivity.
  unfold expander_label. destruct (60 <? length q) eqn:E.
  - apply Nat.ltb_lt in E. split_and!.
    + by rewrite take_app_length' by done.
    + rewrite !length_app, length_take, H2, H3. lia.
    + rewrite !length_app, length_take, H2, H3. lia.
    + rewrite drop_app_length' by done.
      replace (min 60 (length q)) with (length (take 60 q))
        by (rewrite length_take; lia).
      by rewrite take_app_length.
  - apply Nat.ltb_ge in E. split_and!.
    + by rewrite take_app_length' by done.
    + rewrite length_app, H2. lia.
    + rewrite length_app, H2. lia.
    + rewrite drop_app_length' by done.
      rewrite (take_ge q 60) by done. apply take_ge. lia.
Qed.

Lemma enumerate_elem {A} k (l : list A) ic : ic ∈ enumerate k l → ic.2 ∈ l.
Proof.
  revert k. induction l as [|x l IH]; intros k H; cbn in H.
  - by apply elem_of_nil in H.
  - apply elem_of_cons in H as [->|H]; [apply list_elem_of_here|].
    apply list_elem_of_further. by eapply IH.
Qed.

(** X19: every section a run puts on the page shows an entry of the
    conversation the run started with: its label is the label of that
    entry's question, which begins with the marker glyph and a space and
    has at most 65 characters, and its body is that entry's question and
    answer; a section is rendered only by a run that ends normally. *)
Theorem sections_show_stored_entries w inp ss env t b body :
  (t, b, body) ∈ sections (log (run w inp ss env).2) →
  (run w inp ss env).1 = Ok tt
  ∧ take 2 t = py "❓ "
  ∧ length t ≤ 65
  ∧ ∃ c, c ∈ conversation ss
         ∧ t = expander_label (question c)
         ∧ body = chat_body c.
Proof.
  assert (∀ h, (t, b, body) ∈ map section_of (enumerate 0 (reverse h)) →
               take 2 t = py "❓ " ∧ length t ≤ 65
               ∧ ∃ c, c ∈ h ∧ t = expander_label (question c) ∧ body = chat_body c)
    as Hsec.
  { intros h H. apply list_elem_of_fmap in H as ([i c] & E & H).
    apply enumerate_elem in H. cbn [snd] in H. rewrite elem_of_reverse in H.
    unfold section_of in E. cbn [fst snd] in E. injection E as -> _ ->.
    destruct (expander_label_bounds (question c)) as (? & _ & ? & _).
    split; [done|]. split; [done|]. by exists c. }
  destruct (run_cases w inp ss env) as [(f & df & agent & Hr)|(_ & _ & Hp)].
  2: { rewrite (plain_sections _ Hp). intros H. by apply elem_of_nil in H. }
  pose proof (plain_built w inp f df) as Hp.
  by_outcome Hr; cbn [fst snd log];
    rewrite ?sections_app, (asked_sections _ _ Hp), ?sections_waiting,
      ?sections_history;
    cbn [app]; intros Hin;
    first [ by apply elem_of_nil in Hin | split; [done|]; by apply Hsec ].
Qed.

Lemma sections_show_stored_entries_witness :
  (expander_label (question Sample.e2), true, chat_body Sample.e2)
    ∈ sections (log (run (Sample.patched Sample.answers) Sample.idle
                       (Sample.session [Sample.e1; Sample.e2]) ∅).2)
  ∧ length (expander_label (question Sample.e2)) ≤ 65.
Proof.
  assert ((expander_label (question Sample.e2), true, chat_body Sample.e2)
            ∈ sections (log (run (Sample.patched Sample.answers) Sample.idle
                               (Sample.session [Sample.e1; Sample.e2]) ∅).2)) as Hin.
  { vm_compute. apply list_elem_of_here. }
  split; [exact Hin|].
  exact (proj1 (proj2 (proj2 (sections_show_stored_entries _ _ _ _ _ _ _ Hin)))).
Defined.
